(** * wenuclient: a shallow embedding of [wenuclient.py]

    The development follows the source file top to bottom:
    - Python values as far as the client handles them (decoded JSON),
    - the exceptions the client can raise and an error/state monad in which
      the HTTP session is threaded explicitly,
    - [validate_and_jsonify] and the four verbs of [Client],
    - [Client._spawn_entities] and [Client.__getattr__],
    - [Entity]: attribute protocol, class methods and instance methods.

    Modelling conventions.
    - A [requests.Response] is kept as its status code and what
      [json.loads] makes of its text ([None] when the text is not JSON):
      the source reads the text only through [json.loads] and the debug
      log.  The text of a response depends on its [encoding]; the response
      [Client.delete] puts together has none, so a [Response] also records
      what its content decodes to under the charset [requests] guesses.
    - The session (transport, server) is a state machine [respond]; every
      request is appended to a log, so that "no request was issued" is a
      statement on the log.  Transport exceptions of [requests] are not
      modelled: every request gets a response.
    - Strings hold text in UTF-8.  [str.title] is a builtin that knows
      Unicode: it is a member of the class [Text], given by what it does
      on ASCII strings and by the one fact about its first character that
      discovery relies on.  JSON numbers are integers.
    - [str] and [json.dumps] are builtins of Python; they are the two
      members of the class [Builtins]. *)

From Stdlib Require Import ZArith Ascii String List Bool Lia.
From stdpp Require Import base option list strings pretty gmap fin_maps.

Set Warnings "-register-all".
Local Open Scope string_scope.
Local Open Scope Z_scope.

(** ** Values, exceptions, results *)

(** Decoded JSON, which is also what keyword arguments and field values are.
    [VNone] is Python's [None] (JSON [null]). *)
Inductive value : Type :=
  | VNone
  | VBool (b : bool)
  | VInt (n : Z)
  | VStr (s : string)
  | VList (l : list value)
  | VDict (d : gmap string value).

(** The exceptions the client meets.  [HTTPError] is what
    [Response.raise_for_status] raises, [ValueError] what [json.loads] raises
    on a text that is not JSON.  [Unmodelled] is no Python exception: it marks
    the places where a run leaves the state space of this model (see
    [dict_update], [Entity.__setattr__] and [ClientInit.getattr]). *)
Inductive exn : Type :=
  | HTTPError (status : Z)
  | ValueError
  | KeyError (key : string)
  | TypeError
  | AttributeError (name : string)
  | AssertionError
  | StopIteration
  | Unmodelled.

Inductive result (A : Type) : Type :=
  | Ok (a : A)
  | Raise (e : exn).
Arguments Ok {A} a.
Arguments Raise {A} e.

Definition is_ok {A} (r : result A) : bool :=
  match r with Ok _ => true | Raise _ => false end.

(** ** Dynamic operations on values *)

(** [v[key]] for a string key. *)
Definition getitem (v : value) (key : string) : result value :=
  match v with
  | VDict d => match d !! key with
               | Some x => Ok x
               | None => Raise (KeyError key)
               end
  | _ => Raise TypeError
  end.

Fixpoint chars (s : string) : list value :=
  match s with
  | EmptyString => []
  | String c s' => VStr (String c EmptyString) :: chars s'
  end.

(** [iter(v)], run to the end.  A dict iterates over its keys; the order
    used here is the one of [map_to_list], not Python's insertion order, and
    nothing below depends on it (every key is a [str], which the
    constructor refuses as keyword arguments).  A string iterates over its
    characters, here over its bytes; these too are strings, refused the
    same way. *)
Definition py_iter (v : value) : result (list value) :=
  match v with
  | VList l => Ok l
  | VDict d => Ok (VStr <$> (map_to_list d).*1)
  | VStr s => Ok (chars s)
  | _ => Raise TypeError
  end.

(** [d.update(v)] on a string-keyed dict.  A JSON object is merged key by
    key, the argument winning.  [None], booleans and numbers are not
    iterable; a non-empty string iterates over one-character strings, which
    are not pairs.  A non-empty list is read by Python as a sequence of
    pairs whose keys may be of any hashable type: such field mappings are
    outside this model. *)
Definition dict_update (d : gmap string value) (v : value)
  : result (gmap string value) :=
  match v with
  | VDict d' => Ok (d' ∪ d)
  | VList [] => Ok d
  | VList (_ :: _) => Raise Unmodelled
  | VStr EmptyString => Ok d
  | VStr (String _ _) => Raise ValueError
  | _ => Raise TypeError
  end.

Definition and_then {A B} (r : result A) (k : A → result B) : result B :=
  match r with
  | Ok a => k a
  | Raise e => Raise e
  end.

Notation "x <- r ;; k" := (and_then r (fun x => k))
  (at level 100, r at next level, right associativity).

(** ** [str.title] and [str.replace] *)

(** The functions of this section up to [title] work on the ASCII letters:
    they say what [str.title] and [str.lower] do on an ASCII string, and
    are used for nothing else. *)

Definition is_upper (c : ascii) : bool :=
  ((65 <=? N_of_ascii c) && (N_of_ascii c <=? 90))%N.

Definition is_lower (c : ascii) : bool :=
  ((97 <=? N_of_ascii c) && (N_of_ascii c <=? 122))%N.

Definition is_cased (c : ascii) : bool := is_upper c || is_lower c.

Definition to_upper (c : ascii) : ascii :=
  if is_lower c then ascii_of_N (N_of_ascii c - 32) else c.

Definition to_lower (c : ascii) : ascii :=
  if is_upper c then ascii_of_N (N_of_ascii c + 32) else c.

(** The loop of [str.title] on an ASCII string: a character that follows
    a letter is lowered, any other is put in upper case. *)
Fixpoint title_from (previous_is_cased : bool) (s : string) : string :=
  match s with
  | EmptyString => EmptyString
  | String c s' =>
      String (if previous_is_cased then to_lower c else to_upper c)
             (title_from (is_cased c) s')
  end.

Definition title (s : string) : string := title_from false s.

Fixpoint is_ascii (s : string) : bool :=
  match s with
  | EmptyString => true
  | String c s' => (N_of_ascii c <? 128)%N && is_ascii s'
  end.

(** [s.replace('_', '')] *)
Fixpoint replace_underscore (s : string) : string :=
  match s with
  | EmptyString => EmptyString
  | String c s' =>
      if ascii_dec c "_"%char then replace_underscore s'
      else String c (replace_underscore s')
  end.

Fixpoint has_underscore (s : string) : bool :=
  match s with
  | EmptyString => false
  | String c s' => (if ascii_dec c "_"%char then true else false)
                   || has_underscore s'
  end.

(** The first character is one of the letters [a] to [z]. *)
Definition starts_lower (s : string) : bool :=
  match s with
  | EmptyString => false
  | String c _ => is_lower c
  end.

(** [str.title] on any text.  Python cases the letters of Unicode, of
    which this development has no table; the method is therefore a
    parameter, known by two facts: on an ASCII string it is [title]; and
    once the underscores are out, its result does not start with one of
    the letters [a] to [z] (the first character that is no underscore is
    put in title case, and no title-case mapping of Unicode starts with
    such a letter). *)
Class Text : Type := {
  py_title : string → string;
  py_title_ascii : ∀ s, is_ascii s = true → py_title s = title s;
  py_title_start :
    ∀ s, starts_lower (replace_underscore (py_title s)) = false
}.

(** [child['title'].title().replace('_', '')] on the string. *)
Definition normalize `{Text} (s : string) : string :=
  replace_underscore (py_title s).

(** [s.lower()] on an ASCII string. *)
Fixpoint ascii_lower (s : string) : string :=
  match s with
  | EmptyString => EmptyString
  | String c s' => String (to_lower c) (ascii_lower s')
  end.

(** Names that start with two underscores.  Those that [object] gives to
    every instance ([__class__], [__dict__], ...) are among them; the model
    of attribute lookup knows of such names only the methods of the
    source. *)
Definition is_dunder (k : string) : bool :=
  match k with
  | String a (String b _) =>
      (if ascii_dec a "_"%char then true else false)
      && (if ascii_dec b "_"%char then true else false)
  | _ => false
  end.

(** ** HTTP: requests, responses, the session *)

Inductive method : Type := GET | PUT | POST | DELETE.

(** What the client hands to [requests]: the verb, the URL, the [json=]
    payload and the [If-Match] header, the only header it ever sets. *)
Record Request : Type := mkRequest {
  req_method : method;
  req_url : string;
  req_json : option value;
  req_if_match : option value
}.

(** [status_code]; [json.loads(text)] if the text is JSON, the text being
    the content decoded with the [encoding] of the response; and what
    [json.loads] makes of the content decoded with the charset [requests]
    guesses from the bytes, which is the text of a response whose
    [encoding] is [None]. *)
Record Response : Type := mkResponse {
  status_code : Z;
  body : option value;
  guessed : option value
}.

(** The session together with the server behind it. *)
Class Session : Type := {
  backend : Type;
  respond : Request → backend → Response * backend
}.

(** [str(x)] on values other than strings, and [json.dumps] on keyword
    arguments. *)
Class Builtins : Type := {
  py_str : value → string;
  json_dumps : gmap string value → string
}.

(** ['{}'.format(v)] *)
Definition fmt `{Builtins} (v : value) : string :=
  match v with
  | VStr s => s
  | _ => py_str v
  end.

Section Monad.
Context `{Session}.

Record world : Type := mkWorld {
  remote : backend;
  sent : list Request
}.

Definition M (A : Type) : Type := world → result A * world.

Definition ret {A} (a : A) : M A := fun w => (Ok a, w).
Definition raise {A} (e : exn) : M A := fun w => (Raise e, w).
Definition bind {A B} (m : M A) (k : A → M B) : M B :=
  fun w => match m w with
           | (Ok a, w') => k a w'
           | (Raise e, w') => (Raise e, w')
           end.
Definition lift {A} (r : result A) : M A := fun w => (r, w).

(** [self.session.<verb>(url, json=..., headers=...)] *)
Definition send (r : Request) : M Response :=
  fun w => let '(resp, s) := respond r (remote w) in
           (Ok resp, {| remote := s; sent := sent w ++ [r] |}).
End Monad.

Notation "x <~ m ;; k" := (bind m (fun x => k))
  (at level 100, m at next level, right associativity).


(** ** [validate_and_jsonify] *)

(** [Response.raise_for_status] of [requests]: client errors (4xx) and server
    errors (5xx) raise, every other status passes. *)
Definition raise_for_status (r : Response) : result unit :=
  if (400 <=? status_code r) && (status_code r <? 600)
  then Raise (HTTPError (status_code r))
  else Ok tt.

(** [json.loads(http_response.text)] *)
Definition json_loads (r : Response) : result value :=
  match body r with
  | Some v => Ok v
  | None => Raise ValueError
  end.

(** The decorator's [closure]: run the wrapped method, raise on an error
    status, decode the body.  The debug log has no effect. *)
Definition validate_and_jsonify `{Session} (func : M Response) : M value :=
  http_response <~ func ;;
  _ <~ lift (raise_for_status http_response) ;;
  lift (json_loads http_response).

Definition is_none (v : value) : bool :=
  match v with VNone => true | _ => false end.

(** ['/'.join((url, route))] *)
Definition join (url route : string) : string := url ++ "/" ++ route.

(** ** [Client]: the four verbs *)

Module Client.

(** The [Client] object as its verbs and the entity classes see it:
    [self.url]; [self.session] is the session of the model. *)
Record handle : Type := mkHandle { url : string }.

Section Verbs.
Context `{Session}.

Definition get (self : handle) (route : string) : M value :=
  validate_and_jsonify
    (send (mkRequest GET (join (url self) route) None None)).

Definition put (self : handle) (route : string) (json etag : value)
  : M value :=
  validate_and_jsonify
    (if negb (is_none etag)
     then send (mkRequest PUT (join (url self) route) (Some json)
                          (Some etag))
     else send (mkRequest PUT (join (url self) route) (Some json) None)).

Definition post (self : handle) (route : string) (json : value)
  : M value :=
  validate_and_jsonify
    (send (mkRequest POST (join (url self) route) (Some json) None)).

(** The wrapped method returns a fresh [Response] carrying the status of
    the DELETE and the content of the GET; the decorator validates and
    decodes that one.  A fresh [Response] has no [encoding], and the
    assignment to [_text] sets an attribute that nothing reads: its text
    is the content of the GET under the guessed charset. *)
Definition delete (self : handle) (route : string) (etag : value)
  : M value :=
  validate_and_jsonify
    (response <~ send (mkRequest GET (join (url self) route) None None) ;;
     r <~ (if negb (is_none etag)
           then send (mkRequest DELETE (join (url self) route) None
                                (Some etag))
           else send (mkRequest DELETE (join (url self) route) None
                                None)) ;;
     ret {| status_code := status_code r; body := guessed response;
            guessed := guessed response |}).
End Verbs.

End Client.

(** ** [Entity] *)

Fixpoint has_nul (s : string) : bool :=
  match s with
  | EmptyString => false
  | String c s' => (if ascii_dec c zero then true else false) || has_nul s'
  end.

(** [k.startswith('_')] *)
Definition startswith_underscore (k : string) : bool :=
  match k with
  | String c _ => if ascii_dec c "_"%char then true else false
  | EmptyString => false
  end.

Module Entity.

(** A class made by [spawn_subclass]: its [__name__], the class attributes
    [link] and [server], and the identity of the class object ([type]
    returns a new class at every call). *)
Record class : Type := mkClass {
  class_id : nat;
  name : string;
  link : value;
  server : Client.handle
}.

(** An instance: its class, the dict bound to [self.fields], and the other
    entries of the instance [__dict__] ([initialized] and whatever
    [object.__setattr__] stored). *)
Record instance : Type := mkInstance {
  cls : class;
  fields : gmap string value;
  attrs : gmap string value
}.

(** [type(str(title), (cls,), {'server': server, 'link': link})]; [oid] is
    the identity of the new class object.  [type] refuses a name with a NUL
    character in it (with a [ValueError] in Python 3). *)
Definition spawn_subclass (oid : nat) (title : string) (link : value)
    (server : Client.handle) : result class :=
  if has_nul title then Raise ValueError
  else Ok {| class_id := oid; name := title; link := link;
             server := server |}.

(** [Entity.__init__(self, **kwargs)]: both assignments go through
    [__setattr__] while [initialized] is not yet in [__dict__], hence to
    [object.__setattr__]. *)
Definition __init__ (c : class) (kwargs : gmap string value) : instance :=
  {| cls := c; fields := kwargs;
     attrs := {[ "initialized" := VBool true ]} |}.

(** The call [cls] of the class on a row unpacked as keyword arguments: the
    row must be a mapping, and the name [self] is already taken by the
    first parameter of [__init__]. *)
Definition construct (c : class) (row : value) : result instance :=
  match row with
  | VDict d => match d !! "self" with
               | Some _ => Raise TypeError
               | None => Ok (__init__ c d)
               end
  | _ => Raise TypeError
  end.

(** Names that attribute lookup finds on the class: the two class
    attributes and the methods of the source. *)
Definition class_members : list string :=
  [ "link"; "server"; "spawn_subclass"; "list"; "get_by_id"; "where";
    "embedded"; "first_where"; "regular_fields"; "remove"; "create";
    "save"; "__init__"; "__getattr__"; "__setattr__"; "__str__" ].

Definition is_class_member (attr : string) : bool :=
  bool_decide (attr ∈ class_members).

(** What [entity.attr] evaluates to. *)
Inductive attribute : Type :=
  | Plain (v : value)
  | Member (attr : string).

(** [Entity.__getattr__], the fallback of attribute lookup. *)
Definition __getattr__ (self : instance) (attr : string) : result value :=
  match fields self !! attr with
  | Some v => Ok v
  | None => Raise (AttributeError attr)
  end.

(** [self.attr]: the instance [__dict__], then the class, then
    [__getattr__]. *)
Definition getattr (self : instance) (attr : string) : result attribute :=
  if String.eqb attr "fields" then Ok (Plain (VDict (fields self)))
  else match attrs self !! attr with
       | Some v => Ok (Plain v)
       | None =>
           if is_class_member attr then Ok (Member attr)
           else match __getattr__ self attr with
                | Ok v => Ok (Plain v)
                | Raise e => Raise e
                end
       end.

(** [Entity.__setattr__].  A key of the field mapping is rewritten there;
    any other name goes to [object.__setattr__].  Rebinding [fields] to a
    dict is followed; storing a non-dict under [fields], or an instance
    attribute that hides a class member, leaves the model, whose methods
    read [self.fields], [self.link] and [self.server] as [__init__] and the
    class bind them. *)
Definition __setattr__ (self : instance) (attr : string) (val : value)
  : result instance :=
  if bool_decide (is_Some (attrs self !! "initialized"))
     && bool_decide (is_Some (fields self !! attr))
  then Ok {| cls := cls self; fields := <[attr := val]> (fields self);
             attrs := attrs self |}
  else if String.eqb attr "fields" then
    match val with
    | VDict d => Ok {| cls := cls self; fields := d; attrs := attrs self |}
    | _ => Raise Unmodelled
    end
  else if is_class_member attr then Raise Unmodelled
  else Ok {| cls := cls self; fields := fields self;
             attrs := <[attr := val]> (attrs self) |}.

(** [self.fields[k] = v], the direct way into the mapping. *)
Definition fields_setitem (self : instance) (k : string) (v : value)
  : instance :=
  {| cls := cls self; fields := <[k := v]> (fields self);
     attrs := attrs self |}.

(** [{k: v for k, v in self.fields.items() if not k.startswith('_')}] *)
Definition regular_fields (self : instance) : gmap string value :=
  filter (fun kv => startswith_underscore kv.1 = false) (fields self).

(** The object the generator expression over [rows] evaluates to: the
    rows not yet consumed.  The rows were fixed when the expression was
    evaluated; each instance is built when it is asked for. *)
Record generator : Type := mkGenerator {
  gen_cls : class;
  pending : list value
}.

(** [next(g)]: an exception inside the generator finishes it. *)
Definition next (g : generator) : result instance * generator :=
  match pending g with
  | [] => (Raise StopIteration, g)
  | row :: rest =>
      match construct (gen_cls g) row with
      | Ok e => (Ok e, {| gen_cls := gen_cls g; pending := rest |})
      | Raise x => (Raise x, {| gen_cls := gen_cls g; pending := [] |})
      end
  end.

(** [cls.link != 'measurement'] *)
Definition link_is_measurement (c : class) : bool :=
  match link c with
  | VStr s => String.eqb s "measurement"
  | _ => false
  end.

Section Methods.
Context `{Session} `{Builtins}.

(** The list comprehension over [rows]: every instance is built at
    once, the first row that is refused raises. *)
Fixpoint construct_all (c : class) (rows : list value)
  : result (list instance) :=
  match rows with
  | [] => Ok []
  | row :: rest =>
      match construct c row with
      | Ok e => match construct_all c rest with
                | Ok es => Ok (e :: es)
                | Raise x => Raise x
                end
      | Raise x => Raise x
      end
  end.

(** Without options the link goes to ['/'.join] as it is, which wants a
    [str]. *)
Definition list_ (c : class) (options : value) : M (list instance) :=
  link <~ lift (if is_none options
                then match link c with
                     | VStr s => Ok s
                     | _ => Raise TypeError
                     end
                else Ok (fmt (link c) ++ "?" ++ fmt options)) ;;
  results <~ Client.get (server c) link ;;
  items <~ lift (getitem results "_items") ;;
  rows <~ lift (py_iter items) ;;
  lift (construct_all c rows).

Definition get_by_id (c : class) (_id options : value) : M instance :=
  if link_is_measurement c then raise AssertionError
  else
    let link := if is_none options then fmt (link c) ++ "/" ++ fmt _id
                else fmt (link c) ++ "/" ++ fmt _id ++ "?" ++ fmt options
    in
    row <~ Client.get (server c) link ;;
    lift (construct c row).

Definition where_ (c : class) (options : value)
    (kwargs : gmap string value) : M generator :=
  let link := fmt (link c) ++ "?where=" ++ json_dumps kwargs in
  let link := if negb (is_none options) then link ++ "&" ++ fmt options
              else link in
  results <~ Client.get (server c) link ;;
  items <~ lift (getitem results "_items") ;;
  rows <~ lift (py_iter items) ;;
  ret {| gen_cls := c; pending := rows |}.

Definition embedded (c : class) (options : value)
    (kwargs : gmap string value) : M generator :=
  let link := fmt (link c) ++ "?embedded=" ++ json_dumps kwargs in
  let link := if negb (is_none options) then link ++ "&" ++ fmt options
              else link in
  results <~ Client.get (server c) link ;;
  items <~ lift (getitem results "_items") ;;
  rows <~ lift (py_iter items) ;;
  ret {| gen_cls := c; pending := rows |}.

(** [next] of [cls.where] on the keywords.  Of the keywords, [cls]
    collides with the first parameter of [where] and [options] is taken by
    its second; the rest are the filters. *)
Definition first_where (c : class) (kwargs : gmap string value)
  : M (option instance) :=
  match kwargs !! "cls" with
  | Some _ => raise TypeError
  | None =>
      g <~ where_ c (default VNone (kwargs !! "options"))
                  (delete "options" kwargs) ;;
      match next g with
      | (Ok e, _) => ret (Some e)
      | (Raise StopIteration, _) => ret None
      | (Raise x, _) => raise x
      end
  end.

(** [self.fields.get('_etag', None)] *)
Definition etag_of (self : instance) : value :=
  default VNone (fields self !! "_etag").

(** The instance methods return the value of the call together with the
    instance as the call left it. *)
Definition remove (self : instance) : M (value * instance) :=
  _id <~ lift (getitem (VDict (fields self)) "_id") ;;
  response <~ Client.delete (server (cls self))
                            (fmt (link (cls self)) ++ "/" ++ fmt _id)
                            (etag_of self) ;;
  ret (response, self).

(** [self.link] goes to ['/'.join] as it is, which wants a [str].  The
    response is merged into the dict bound to [self.fields]. *)
Definition create (self : instance) : M (value * instance) :=
  match link (cls self) with
  | VStr route =>
      response <~ Client.post (server (cls self)) route
                              (VDict (fields self)) ;;
      fields' <~ lift (dict_update (fields self) response) ;;
      ret (response, {| cls := cls self; fields := fields';
                        attrs := attrs self |})
  | _ => raise TypeError
  end.

(** [regular_fields] builds a new dict; nothing is assigned to. *)
Definition save (self : instance) : M (value * instance) :=
  _id <~ lift (getitem (VDict (fields self)) "_id") ;;
  response <~ Client.put (server (cls self))
                         (fmt (link (cls self)) ++ "/" ++ fmt _id)
                         (VDict (regular_fields self))
                         (etag_of self) ;;
  ret (response, self).
End Methods.

End Entity.

(** ** [Client]: discovery and attribute access *)

Module ClientInit.

(** A [Client] once [__init__] has run. *)
Record client : Type := mkClient {
  self : Client.handle;
  entities : gmap string Entity.class
}.

(** [extra_entities] of [Client.__init__]. *)
Definition extra_entities : list value :=
  [ VDict {[ "title" := VStr "Measurement"; "href" := VStr "measurement" ]} ].

(** [response['_links']['child'].append({'title': entry['title'],
    'href': entry['href']})]: the method is looked up before the dict
    display is evaluated; the list is updated in place, which is to say
    [response] holds the longer list afterwards. *)
Definition append_child (response entry : value) : result value :=
  links <- getitem response "_links" ;;
  child <- getitem links "child" ;;
  match response, links, child with
  | VDict d, VDict dl, VList l =>
      t <- getitem entry "title" ;;
      h <- getitem entry "href" ;;
      let item := VDict {[ "title" := t; "href" := h ]} in
      Ok (VDict (<["_links" := VDict (<["child" := VList (l ++ [item])]> dl)]> d))
  | _, _, _ => Raise (AttributeError "append")
  end.

Fixpoint append_all (response : value) (insert : list value)
  : result value :=
  match insert with
  | [] => Ok response
  | entry :: rest =>
      response' <- append_child response entry ;;
      append_all response' rest
  end.

(** [child['title'].title().replace('_', '')]: only a [str] has the
    method. *)
Definition normalized_title `{Text} (child : value) : result string :=
  raw <- getitem child "title" ;;
  match raw with
  | VStr s => Ok (normalize s)
  | _ => Raise (AttributeError "title")
  end.

(** The second loop of [_spawn_entities], [oid] counting the classes made
    so far. *)
Fixpoint spawn_loop `{Text} (self : Client.handle) (oid : nat)
    (children : list value) (entities : gmap string Entity.class)
  : result (gmap string Entity.class) :=
  match children with
  | [] => Ok entities
  | child :: rest =>
      title <- normalized_title child ;;
      href <- getitem child "href" ;;
      entity <- Entity.spawn_subclass oid title href self ;;
      spawn_loop self (S oid) rest (<[title := entity]> entities)
  end.

(** Names that attribute lookup finds on a [Client] or on its class before
    it turns to [__getattr__]. *)
Definition own_members : list string :=
  [ "session"; "url"; "entities"; "__init__"; "refresh_token";
    "__getattr__"; "_validate"; "_spawn_entities"; "get"; "put"; "post";
    "delete" ].

Inductive attribute : Type :=
  | Own (attr : string)
  | EntityClass (c : Entity.class).

Section Discovery.
Context `{Session} `{Text}.

Definition _spawn_entities (self : Client.handle)
    (insert : option (list value)) : M (gmap string Entity.class) :=
  http_response <~ send (mkRequest GET (Client.url self) None None) ;;
  _ <~ lift (raise_for_status http_response) ;;
  response <~ lift (json_loads http_response) ;;
  response <~ lift (match insert with
                    | Some entries => append_all response entries
                    | None => Ok response
                    end) ;;
  links <~ lift (getitem response "_links") ;;
  child <~ lift (getitem links "child") ;;
  children <~ lift (py_iter child) ;;
  lift (spawn_loop self 0 children ∅).

Definition __init__ (url : string) : M client :=
  let self := Client.mkHandle url in
  entities <~ _spawn_entities self (Some extra_entities) ;;
  ret {| self := self; entities := entities |}.
End Discovery.


Section Token.
Context `{Credentials}.

End Token.

(** [Client.__getattr__] *)
Definition __getattr__ (c : client) (attr : string)
  : result Entity.class :=
  match entities c !! attr with
  | Some e => Ok e
  | None => Raise (AttributeError attr)
  end.

(** [client.attr].  Lookup finds the names of [own_members] and, among
    the names with two leading underscores, those that [object] gives to
    every instance; which these are is outside the model.  Every other
    name goes to [__getattr__]. *)
Definition getattr (c : client) (attr : string) : result attribute :=
  if bool_decide (attr ∈ own_members) then Ok (Own attr)
  else if is_dunder attr then Raise Unmodelled
  else match __getattr__ c attr with
       | Ok e => Ok (EntityClass e)
       | Raise x => Raise x
       end.

End ClientInit.

(** ** A session to run the model on *)

Module Demo.

(** A server that answers every request with the same status and body.
    The servers of the runs send ASCII, which every charset that is
    guessed decodes alike. *)
Definition constant (status : Z) (b : option value) : Session :=
  {| backend := unit;
     respond := fun _ s =>
       ({| status_code := status; body := b; guessed := b |}, s) |}.

Definition discovery (children : list value) : value :=
  VDict {[ "_links" := VDict {[ "child" := VList children ]} ]}.

Definition resource (title href : string) : value :=
  VDict {[ "title" := VStr title; "href" := VStr href ]}.

(** Stand-ins for the builtins: [str] on [None], booleans and integers,
    and [json.dumps] on the empty dict.  The runs below format no list and
    no dict and pass no filters. *)
Definition builtins : Builtins :=
  {| py_str := fun v => match v with
                        | VNone => "None"
                        | VBool true => "True"
                        | VBool false => "False"
                        | VInt n => pretty n
                        | _ => ""
                        end;
     json_dumps := fun _ => "{}" |}.

(** Servers for the runs below: one that lists a resource titled
    [measurement] and a resource titled [book], one that answers with two
    rows, one that answers with the identity of a created row, and one on
    which nothing is found. *)
Definition catalogue : Session :=
  constant 200 (Some (discovery [ resource "measurement" "sensor_log";
                                  resource "book" "book" ])).

Definition two_rows : Session :=
  constant 200 (Some (VDict {[ "_items" :=
                                 VList [ VDict {[ "a" := VInt 1 ]};
                                         VDict {[ "a" := VInt 2 ]} ] ]})).

Definition created : Session :=
  constant 201 (Some (VDict {[ "_id" := VInt 7; "_etag" := VStr "e1" ]})).

Definition not_found : Session :=
  constant 404 (Some (VDict {[ "_status" := VStr "ERR" ]})).

Definition w0 `{Session} (s : backend) : world :=
  {| remote := s; sent := [] |}.

(** A server whose resource does not allow GET on its items: every GET is
    answered 405 with an error document, every other request succeeds
    with 204 and an empty text. *)
Definition get_fails : Session :=
  {| backend := unit;
     respond := fun r s =>
       match req_method r with
       | GET => ({| status_code := 405;
                    body := Some (VDict {[ "_status" := VStr "ERR" ]});
                    guessed := Some (VDict {[ "_status" := VStr "ERR" ]}) |},
                 s)
       | _ => ({| status_code := 204; body := None; guessed := None |}, s)
       end |}.

Definition server : Client.handle := Client.mkHandle "http://wenu".

Definition Book : Entity.class :=
  Entity.mkClass 1 "Book" (VStr "book") server.

Definition Measurement : Entity.class :=
  Entity.mkClass 2 "Measurement" (VStr "measurement") server.

(** The [Client] that [__init__] makes on [catalogue], and the world it
    leaves. *)
Definition client : ClientInit.client :=
  {| ClientInit.self := server;
     ClientInit.entities :=
       {[ "Book" := Book; "Measurement" := Measurement ]} |}.

Definition w1 : @world catalogue :=
  @mkWorld catalogue tt [ mkRequest GET "http://wenu" None None ].

End Demo.

(** Further servers: one whose second row is no JSON object, and one that
    lists a resource without a link. *)
Module Cases.

Definition mixed_rows : Session :=
  Demo.constant 200
    (Some (VDict {[ "_items" := VList [ VDict {[ "a" := VInt 1 ]};
                                        VInt 5 ] ]})).

Definition broken_catalogue : Session :=
  Demo.constant 200
    (Some (Demo.discovery [ Demo.resource "book" "book";
                            VDict {[ "title" := VStr "author" ]} ])).



End Cases.

(** ** Vocabulary of the statements *)

(** A computation that sends nothing and leaves the server alone. *)
Definition silent `{Session} {A} (m : M A) : Prop := ∀ w, (m w).2 = w.

(** What a call that only reads may have done to the world [w]: at most
    one request more in the log, and that one a GET without payload and
    without precondition. *)
Definition only_read `{Session} (w w' : world) : Prop :=
  ∃ l, sent w' = (sent w ++ l)%list
       ∧ (length l ≤ 1)%nat
       ∧ Forall (fun r => req_method r = GET ∧ req_json r = None
                          ∧ req_if_match r = None) l.

(** What the decorator makes of a response. *)
Definition checked (resp : Response) : result value :=
  _ <- raise_for_status resp ;; json_loads resp.

(** The status codes on which [raise_for_status] raises. *)
Definition is_error (status : Z) : bool :=
  (400 <=? status) && (status <? 600).

(** The header [put] and [delete] send for an [etag] argument. *)
Definition if_match_of (etag : value) : option value :=
  if is_none etag then None else Some etag.

(** The link [where] and [embedded] build, by the name of the query
    parameter. *)
Definition query_link `{Builtins} (param : string) (c : Entity.class)
    (options : value) (kwargs : gmap string value) : string :=
  fmt (Entity.link c) ++ "?" ++ param ++ "=" ++ json_dumps kwargs
  ++ (if is_none options then "" else "&" ++ fmt options).

(** The query of the specification, written from its words and not from the
    code: one GET to the link with the filters under [param], issued by the
    call itself; the [_items] of the decoded response are the rows of the
    sequence handed back. *)
Definition query_as_specified `{Session} `{Builtins} (param : string)
    (c : Entity.class) (options : value) (kwargs : gmap string value)
  : M Entity.generator :=
  fun w =>
    let r := mkRequest GET
               (join (Client.url (Entity.server c))
                     (query_link param c options kwargs)) None None in
    let answer := respond r (remote w) in
    (decoded <- checked answer.1 ;;
     items <- getitem decoded "_items" ;;
     rows <- py_iter items ;;
     Ok {| Entity.gen_cls := c; Entity.pending := rows |},
     {| remote := answer.2; sent := sent w ++ [r] |}).

(** The outcomes of [n] calls of [next] in a row, up to the first exception
    (which is [StopIteration] on an exhausted generator). *)
Fixpoint outcomes (n : nat) (g : Entity.generator)
  : list (result Entity.instance) :=
  match n with
  | O => []
  | S n' => match Entity.next g with
            | (Ok e, g') => Ok e :: outcomes n' g'
            | (Raise x, _) => [Raise x]
            end
  end.

(** The response to the discovery request of [Client.__init__], and the
    list it carries under [_links], [child]. *)
Definition discovery_response `{Session} (url : string) (w : world)
  : Response :=
  (respond (mkRequest GET url None None) (remote w)).1.

Definition child_list (r : Response) : option (list value) :=
  match body r with
  | Some (VDict d) =>
      match d !! "_links" with
      | Some (VDict dl) =>
          match dl !! "child" with
          | Some (VList l) => Some l
          | _ => None
          end
      | _ => None
      end
  | _ => None
  end.

(** An entry whose title, where it is a string, is ASCII. *)
Definition ascii_titled (child : value) : Prop :=
  match getitem child "title" with
  | Ok (VStr s) => is_ascii s = true
  | _ => True
  end.

(** * Properties *)

(** ** Running the monad *)

Section Run.
Context `{Session}.

Lemma send_run (r : Request) (w : world) :
  send r w = (Ok (respond r (remote w)).1,
              {| remote := (respond r (remote w)).2;
                 sent := sent w ++ [r] |}).
Proof. unfold send. destruct (respond r (remote w)); reflexivity. Qed.

Lemma validate_send_run (r : Request) (w : world) :
  validate_and_jsonify (send r) w
  = (checked (respond r (remote w)).1,
     {| remote := (respond r (remote w)).2; sent := sent w ++ [r] |}).
Proof.
  unfold validate_and_jsonify, bind, lift, checked, and_then.
  rewrite send_run.
  destruct (raise_for_status _); reflexivity.
Qed.

Lemma get_run (self : Client.handle) (route : string) (w : world) :
  let r := mkRequest GET (join (Client.url self) route) None None in
  Client.get self route w
  = (checked (respond r (remote w)).1,
     {| remote := (respond r (remote w)).2; sent := sent w ++ [r] |}).
Proof. apply validate_send_run. Qed.

Lemma post_run (self : Client.handle) (route : string) (json : value)
    (w : world) :
  let r := mkRequest POST (join (Client.url self) route) (Some json) None in
  Client.post self route json w
  = (checked (respond r (remote w)).1,
     {| remote := (respond r (remote w)).2; sent := sent w ++ [r] |}).
Proof. apply validate_send_run. Qed.

Lemma put_run (self : Client.handle) (route : string) (json etag : value)
    (w : world) :
  let r := mkRequest PUT (join (Client.url self) route) (Some json)
                     (if_match_of etag) in
  Client.put self route json etag w
  = (checked (respond r (remote w)).1,
     {| remote := (respond r (remote w)).2; sent := sent w ++ [r] |}).
Proof.
  unfold Client.put, if_match_of.
  destruct (is_none etag); apply validate_send_run.
Qed.

Lemma checked_error (resp : Response) :
  is_error (status_code resp) = true →
  checked resp = Raise (HTTPError (status_code resp)).
Proof.
  unfold is_error. intros E. unfold checked, raise_for_status.
  rewrite E. reflexivity.
Qed.

Lemma checked_pass (resp : Response) :
  is_error (status_code resp) = false →
  checked resp = json_loads resp.
Proof.
  unfold is_error. intros E. unfold checked, raise_for_status.
  rewrite E. reflexivity.
Qed.
End Run.

(** ** Entities: local behaviour *)

Section EntityLocal.
Context `{Session} `{Builtins}.

(** C5.  On a class whose [link] is ['measurement'], [get_by_id] raises
    the assertion error for every id and every options string, and the
    world, hence the log of requests, is the one it started from. *)
Theorem get_by_id_measurement_refused (c : Entity.class)
    (_id options : value) (w : world) :
  Entity.link c = VStr "measurement" →
  Entity.get_by_id c _id options w = (Raise AssertionError, w).
Proof.
  intros L. unfold Entity.get_by_id, Entity.link_is_measurement.
  rewrite L. reflexivity.
Qed.

(** C7.  On an instance whose field mapping has no [_id], [save] and
    [remove] raise [KeyError] on that key and leave the world, hence the
    log of requests and the server, as they found it. *)
Theorem save_remove_need_id (e : Entity.instance) (w : world) :
  Entity.fields e !! "_id" = None →
  Entity.save e w = (Raise (KeyError "_id"), w)
  ∧ Entity.remove e w = (Raise (KeyError "_id"), w).
Proof.
  intros N. unfold Entity.save, Entity.remove, bind, lift, getitem.
  rewrite N. split; reflexivity.
Qed.

(** Assignment to a key of the field mapping rewrites that entry and
    nothing else. *)
Lemma setattr_field (e : Entity.instance) (k : string) (old v : value) :
  is_Some (Entity.attrs e !! "initialized") →
  Entity.fields e !! k = Some old →
  Entity.__setattr__ e k v
  = Ok {| Entity.cls := Entity.cls e;
          Entity.fields := <[k := v]> (Entity.fields e);
          Entity.attrs := Entity.attrs e |}.
Proof.
  intros I F. unfold Entity.__setattr__.
  rewrite (bool_decide_eq_true_2 _ I).
  rewrite bool_decide_eq_true_2; [reflexivity | by rewrite F].
Qed.

(** Assignment to a name that is no key of the mapping, not [fields] and
    not a member of the class, becomes an instance attribute; the mapping
    is left alone. *)
Lemma setattr_fresh (e : Entity.instance) (k : string) (v : value) :
  Entity.fields e !! k = None →
  k ≠ "fields" →
  Entity.is_class_member k = false →
  Entity.__setattr__ e k v
  = Ok {| Entity.cls := Entity.cls e;
          Entity.fields := Entity.fields e;
          Entity.attrs := <[k := v]> (Entity.attrs e) |}.
Proof.
  intros F N M. unfold Entity.__setattr__.
  rewrite (bool_decide_eq_false_2 (is_Some (Entity.fields e !! k))).
  2:{ rewrite F. intros [x Hx]. discriminate. }
  rewrite andb_false_r.
  destruct (String.eqb_spec k "fields") as [->|_]; [done|].
  rewrite M. reflexivity.
Qed.

(** [regular_fields] reads the mapping only: an instance attribute never
    shows up in it. *)
Lemma regular_fields_lookup (e : Entity.instance) (k : string) :
  Entity.regular_fields e !! k
  = if startswith_underscore k then None else Entity.fields e !! k.
Proof.
  unfold Entity.regular_fields.
  destruct (startswith_underscore k) eqn:S.
  - apply map_lookup_filter_None. right. intros v _. simpl. congruence.
  - destruct (Entity.fields e !! k) as [v|] eqn:F.
    + apply map_lookup_filter_Some. split; [exact F | exact S].
    + apply map_lookup_filter_None. left. exact F.
Qed.

(** C2.  An instance made from the keywords [a=1, b=2] reads [1] and [2]
    under [.a] and [.b]; [.a = 5] rewrites the entry [a] of the field
    mapping and leaves [b] and the instance attributes alone; [.c = 9]
    leaves the mapping alone and stores [c] in the instance [__dict__],
    where [.c] reads it, so that [regular_fields()] has no [c] until [c]
    is put into the mapping itself. *)
Theorem field_mapping_round_trip (c : Entity.class) :
  let e0 := Entity.__init__ c {[ "a" := VInt 1; "b" := VInt 2 ]} in
  Entity.getattr e0 "a" = Ok (Entity.Plain (VInt 1))
  ∧ Entity.getattr e0 "b" = Ok (Entity.Plain (VInt 2))
  ∧ ∃ e1 e2,
      Entity.__setattr__ e0 "a" (VInt 5) = Ok e1
      ∧ Entity.fields e1 = {[ "a" := VInt 5; "b" := VInt 2 ]}
      ∧ Entity.attrs e1 = Entity.attrs e0
      ∧ Entity.getattr e1 "a" = Ok (Entity.Plain (VInt 5))
      ∧ Entity.getattr e1 "b" = Ok (Entity.Plain (VInt 2))
      ∧ Entity.__setattr__ e1 "c" (VInt 9) = Ok e2
      ∧ Entity.fields e2 = Entity.fields e1
      ∧ Entity.attrs e2 = <["c" := VInt 9]> (Entity.attrs e1)
      ∧ Entity.getattr e2 "c" = Ok (Entity.Plain (VInt 9))
      ∧ Entity.regular_fields e2 = {[ "a" := VInt 5; "b" := VInt 2 ]}
      ∧ Entity.regular_fields e2 !! "c" = None
      ∧ Entity.regular_fields (Entity.fields_setitem e2 "c" (VInt 9)) !! "c"
        = Some (VInt 9).
Proof.
  intros e0. split; [reflexivity|]. split; [reflexivity|].
  eexists _, _.
  split; [reflexivity|]. split; [reflexivity|]. split; [reflexivity|].
  split; [reflexivity|]. split; [reflexivity|]. split; [reflexivity|].
  split; [reflexivity|]. split; [reflexivity|]. split; [reflexivity|].
  split; [reflexivity|]. split; reflexivity.
Qed.
End EntityLocal.

(** ** Entities: what goes over the wire *)

Lemma append_assoc (a b c : string) : ((a ++ b) ++ c = a ++ (b ++ c))%string.
Proof.
  induction a as [|x a IH]; [reflexivity|].
  change (String x ((a ++ b) ++ c) = String x (a ++ (b ++ c)))%string.
  by rewrite IH.
Qed.

Lemma append_nil_r (a : string) : (a ++ "" = a)%string.
Proof.
  induction a as [|x a IH]; [reflexivity|].
  change (String x (a ++ "") = String x a)%string.
  by rewrite IH.
Qed.

Section EntityRemote.
Context `{Session} `{Builtins}.

Lemma save_run (e : Entity.instance) (_id : value) (w : world) :
  Entity.fields e !! "_id" = Some _id →
  let r := mkRequest PUT
             (join (Client.url (Entity.server (Entity.cls e)))
                   (fmt (Entity.link (Entity.cls e)) ++ "/" ++ fmt _id))
             (Some (VDict (Entity.regular_fields e)))
             (if_match_of (Entity.etag_of e)) in
  Entity.save e w
  = (response <- checked (respond r (remote w)).1 ;; Ok (response, e),
     {| remote := (respond r (remote w)).2; sent := sent w ++ [r] |}).
Proof.
  intros I r. unfold Entity.save, bind, lift, getitem. rewrite I.
  rewrite put_run. fold r. unfold ret, and_then.
  destruct (checked _); reflexivity.
Qed.

(** C6.  With [_id] in the field mapping, [save] sends one request: a PUT
    to [{link}/{_id}] whose payload is the entries of the mapping with a
    key that does not start with an underscore, with the [_etag] of the
    mapping as [If-Match] when there is one (an [_etag] that is missing or
    [None] is no etag: no header is sent); when the call returns, the
    instance, its field mapping and its [_etag] are the ones it was called
    on. *)
Theorem save_puts_regular_fields (e : Entity.instance) (_id : value)
    (w : world) :
  Entity.fields e !! "_id" = Some _id →
  let r := mkRequest PUT
             (join (Client.url (Entity.server (Entity.cls e)))
                   (fmt (Entity.link (Entity.cls e)) ++ "/" ++ fmt _id))
             (Some (VDict (Entity.regular_fields e)))
             (match Entity.fields e !! "_etag" with
              | Some VNone | None => None
              | Some t => Some t
              end) in
  sent (Entity.save e w).2 = (sent w ++ [r])%list
  ∧ (∀ k, Entity.regular_fields e !! k
          = if startswith_underscore k then None
            else Entity.fields e !! k)
  ∧ (∀ response e' w',
       Entity.save e w = (Ok (response, e'), w') →
       e' = e
       ∧ Ok response = checked (respond r (remote w)).1).
Proof.
  intros I r.
  assert (R : r = mkRequest PUT
             (join (Client.url (Entity.server (Entity.cls e)))
                   (fmt (Entity.link (Entity.cls e)) ++ "/" ++ fmt _id))
             (Some (VDict (Entity.regular_fields e)))
             (if_match_of (Entity.etag_of e))).
  { unfold r, if_match_of, Entity.etag_of.
    destruct (Entity.fields e !! "_etag") as [[]|]; reflexivity. }
  rewrite (save_run e _id w I). rewrite <- R.
  split; [reflexivity|]. split; [apply regular_fields_lookup|].
  intros response e' w' E.
  destruct (checked (respond r (remote w)).1) as [v|x]; simpl in E;
    [|discriminate].
  injection E as <- <- _. split; reflexivity.
Qed.

(** C8.  On a class whose link is a string, [create] sends one request: a
    POST to the link carrying the whole field mapping; when the status is
    no error and the body decodes to an object, the call returns that
    object and every key of it is in the field mapping of the instance
    with the value the server gave, the other entries, the class and the
    instance attributes being as before. *)
Theorem create_posts_and_merges (e : Entity.instance) (route : string)
    (w : world) :
  Entity.link (Entity.cls e) = VStr route →
  let r := mkRequest POST
             (join (Client.url (Entity.server (Entity.cls e))) route)
             (Some (VDict (Entity.fields e))) None in
  sent (Entity.create e w).2 = (sent w ++ [r])%list
  ∧ ∀ d, is_error (status_code (respond r (remote w)).1) = false →
         body (respond r (remote w)).1 = Some (VDict d) →
         ∃ e', (Entity.create e w).1 = Ok (VDict d, e')
               ∧ Entity.cls e' = Entity.cls e
               ∧ Entity.attrs e' = Entity.attrs e
               ∧ (∀ k v, d !! k = Some v → Entity.fields e' !! k = Some v)
               ∧ (∀ k, d !! k = None →
                       Entity.fields e' !! k = Entity.fields e !! k).
Proof.
  intros L r. unfold Entity.create. rewrite L. unfold bind.
  rewrite post_run. fold r. split.
  - destruct (checked _) as [v|x]; [|reflexivity].
    unfold lift, ret. destruct (dict_update _ _); reflexivity.
  - intros d E B. rewrite (checked_pass _ E). unfold json_loads.
    rewrite B. unfold lift, ret, dict_update. eexists. simpl.
    split; [reflexivity|]. split; [reflexivity|]. split; [reflexivity|].
    split.
    + intros k v K. apply lookup_union_Some_l. exact K.
    + intros k K. apply lookup_union_r. exact K.
Qed.

(** [delete] runs the GET, then the DELETE on the state the GET left, and
    validates a response that has the status of the second and the
    content of the first, read under the guessed charset. *)
Lemma delete_run (self : Client.handle) (route : string) (etag : value)
    (w : world) :
  let g := mkRequest GET (join (Client.url self) route) None None in
  let d := mkRequest DELETE (join (Client.url self) route) None
                     (if_match_of etag) in
  let got := respond g (remote w) in
  let deleted := respond d got.2 in
  Client.delete self route etag w
  = (checked {| status_code := status_code deleted.1;
                body := guessed got.1; guessed := guessed got.1 |},
     {| remote := deleted.2; sent := (sent w ++ [g; d])%list |}).
Proof.
  intros g d got deleted.
  unfold Client.delete, validate_and_jsonify, bind.
  rewrite send_run. fold g. fold got.
  assert (D : (if negb (is_none etag)
               then send (mkRequest DELETE (join (Client.url self) route)
                                    None (Some etag))
               else send (mkRequest DELETE (join (Client.url self) route)
                                    None None)) = send d).
  { unfold d, if_match_of. destruct (is_none etag); reflexivity. }
  rewrite D. rewrite send_run. simpl remote. fold deleted.
  unfold ret, lift, checked, and_then. simpl sent.
  rewrite <- app_assoc. simpl.
  destruct (raise_for_status _); reflexivity.
Qed.

(** What [delete] does, for every route and etag: it sends a GET and then
    a DELETE to the route, the DELETE with the etag as [If-Match] when the
    etag is not [None]; the status of the GET is not looked at; it raises
    [HTTPError] exactly when the status of the DELETE is an error status,
    and otherwise returns what the content of the GET decodes to under
    the guessed charset (raising the decoding error when that is not
    JSON). *)
Lemma delete_outcome (self : Client.handle)
    (route : string) (etag : value) (w : world) :
  let g := mkRequest GET (join (Client.url self) route) None None in
  let d := mkRequest DELETE (join (Client.url self) route) None
                     (match etag with VNone => None | _ => Some etag end) in
  let got := respond g (remote w) in
  let deleted := respond d got.2 in
  Client.delete self route etag w
  = (if is_error (status_code deleted.1)
     then Raise (HTTPError (status_code deleted.1))
     else match guessed got.1 with
          | Some row => Ok row
          | None => Raise ValueError
          end,
     {| remote := deleted.2; sent := (sent w ++ [g; d])%list |}).
Proof.
  intros g d got deleted.
  assert (E : d = mkRequest DELETE (join (Client.url self) route) None
                            (if_match_of etag)).
  { unfold d, if_match_of. destruct etag; reflexivity. }
  unfold deleted, got. rewrite E. rewrite delete_run.
  f_equal. unfold checked, raise_for_status, is_error, and_then. simpl.
  destruct (_ && _); reflexivity.
Qed.

Lemma where_link (c : Entity.class) (options : value)
    (kwargs : gmap string value) (param : string) :
  (let link := (fmt (Entity.link c) ++ ("?" ++ param ++ "=")
                ++ json_dumps kwargs)%string in
   if negb (is_none options) then (link ++ "&" ++ fmt options)%string
   else link)
  = query_link param c options kwargs.
Proof.
  unfold query_link. cbv zeta.
  destruct (is_none options); simpl negb; cbv iota.
  - rewrite append_nil_r.
    rewrite <- !append_assoc. reflexivity.
  - rewrite <- !append_assoc. reflexivity.
Qed.

Lemma where_query (c : Entity.class) (options : value)
    (kwargs : gmap string value) (w : world) :
  Entity.where_ c options kwargs w
  = query_as_specified "where" c options kwargs w.
Proof.
  unfold Entity.where_, query_as_specified. cbv zeta.
  rewrite <- (where_link c options kwargs "where").
  unfold bind. rewrite get_run. unfold and_then, lift, ret.
  destruct (checked _) as [v|x]; [|reflexivity].
  destruct (getitem v "_items") as [i|x]; [|reflexivity].
  destruct (py_iter i); reflexivity.
Qed.

Lemma embedded_query (c : Entity.class) (options : value)
    (kwargs : gmap string value) (w : world) :
  Entity.embedded c options kwargs w
  = query_as_specified "embedded" c options kwargs w.
Proof.
  unfold Entity.embedded, query_as_specified. cbv zeta.
  rewrite <- (where_link c options kwargs "embedded").
  unfold bind. rewrite get_run. unfold and_then, lift, ret.
  destruct (checked _) as [v|x]; [|reflexivity].
  destruct (getitem v "_items") as [i|x]; [|reflexivity].
  destruct (py_iter i); reflexivity.
Qed.

(** A generator gives the instances of its rows in the order of the rows:
    one per call of [next], then [StopIteration]. *)
Lemma outcomes_rows (c : Entity.class) (rows : list value) :
  Forall (fun row => is_ok (Entity.construct c row) = true) rows →
  outcomes (S (length rows))
           {| Entity.gen_cls := c; Entity.pending := rows |}
  = ((Entity.construct c <$> rows) ++ [Raise StopIteration])%list.
Proof.
  induction rows as [|row rest IH]; intros A; [reflexivity|].
  inversion A as [|? ? Hrow Hrest]; subst.
  change (outcomes (S (length (row :: rest))) _)
    with (match Entity.next {| Entity.gen_cls := c;
                               Entity.pending := row :: rest |} with
          | (Ok e, g') => Ok e :: outcomes (S (length rest)) g'
          | (Raise x, _) => [Raise x]
          end).
  unfold Entity.next. cbn [Entity.pending Entity.gen_cls].
  rewrite fmap_cons.
  destruct (Entity.construct c row) as [e|x]; [|discriminate].
  cbn [Entity.pending Entity.gen_cls]. rewrite (IH Hrest). reflexivity.
Qed.

(** C9.  [where] and [embedded] are one query under two parameter names:
    each is the query of the specification with [where], respectively
    [embedded], in the link.  The query sends exactly one request, a GET
    to the link, when it is called; on a response that passes validation
    and decodes to an object with a list under [_items], it returns a
    generator over these rows, which builds one instance per row, in the
    order of the rows. *)
Theorem embedded_is_where_by_parameter (c : Entity.class)
    (options : value) (kwargs : gmap string value) (w : world) :
  Entity.where_ c options kwargs w
  = query_as_specified "where" c options kwargs w
  ∧ Entity.embedded c options kwargs w
    = query_as_specified "embedded" c options kwargs w
  ∧ ∀ param,
      let r := mkRequest GET
                 (join (Client.url (Entity.server c))
                       (fmt (Entity.link c) ++ "?" ++ param ++ "="
                        ++ json_dumps kwargs
                        ++ (if is_none options then ""
                            else "&" ++ fmt options))) None None in
      sent (query_as_specified param c options kwargs w).2
      = (sent w ++ [r])%list
      ∧ ∀ d rows,
          is_error (status_code (respond r (remote w)).1) = false →
          body (respond r (remote w)).1 = Some (VDict d) →
          d !! "_items" = Some (VList rows) →
          (query_as_specified param c options kwargs w).1
          = Ok {| Entity.gen_cls := c; Entity.pending := rows |}
          ∧ (Forall (fun row => is_ok (Entity.construct c row) = true)
                    rows →
             outcomes (S (length rows))
                      {| Entity.gen_cls := c; Entity.pending := rows |}
             = ((Entity.construct c <$> rows) ++ [Raise StopIteration])%list).
Proof.
  split; [apply where_query|]. split; [apply embedded_query|].
  intros param r. split; [reflexivity|].
  intros d rows E B I. split; [|apply outcomes_rows].
  unfold query_as_specified. cbv zeta. unfold query_link. fold r. simpl fst.
  rewrite (checked_pass _ E). unfold json_loads. rewrite B.
  unfold and_then, getitem. rewrite I. reflexivity.
Qed.

(** C4, as the code has it.  When the GET that [where], respectively
    [embedded], sends is answered with an error status, the call itself
    raises [HTTPError] with that status, the request being sent: there is
    no generator to iterate over. *)
Theorem where_embedded_raise_when_called (c : Entity.class)
    (options : value) (kwargs : gmap string value) (w : world) :
  let r := fun param =>
             mkRequest GET
               (join (Client.url (Entity.server c))
                     (query_link param c options kwargs)) None None in
  let raised := fun param =>
             (Raise (HTTPError (status_code
                                  (respond (r param) (remote w)).1)),
              {| remote := (respond (r param) (remote w)).2;
                 sent := (sent w ++ [r param])%list |}) in
  (is_error (status_code (respond (r "where") (remote w)).1) = true →
   Entity.where_ c options kwargs w = raised "where")
  ∧ (is_error (status_code (respond (r "embedded") (remote w)).1) = true →
     Entity.embedded c options kwargs w = raised "embedded").
Proof.
  intros r raised. split; intros E.
  - rewrite where_query. unfold query_as_specified, raised. cbv zeta.
    fold (r "where"). rewrite (checked_error _ E). reflexivity.
  - rewrite embedded_query. unfold query_as_specified, raised. cbv zeta.
    fold (r "embedded"). rewrite (checked_error _ E). reflexivity.
Qed.
End EntityRemote.

(** ** Discovery *)

Lemma to_upper_not_lower (c : ascii) : is_lower (to_upper c) = false.
Proof. destruct c as [[] [] [] [] [] [] [] []]; reflexivity. Qed.

Lemma to_upper_underscore (c : ascii) :
  to_upper c = "_"%char → is_cased c = false.
Proof.
  destruct c as [[] [] [] [] [] [] [] []]; intros E;
    first [reflexivity | discriminate E].
Qed.

Lemma replace_underscore_clean (s : string) :
  has_underscore (replace_underscore s) = false.
Proof.
  induction s as [|c s IH]; [reflexivity|].
  cbn [replace_underscore].
  destruct (ascii_dec c "_") as [E|N]; [exact IH|].
  cbn [has_underscore]. destruct (ascii_dec c "_"); [contradiction|].
  exact IH.
Qed.

(** The ASCII function has the property asked of [py_title]. *)
Lemma title_start (s : string) :
  starts_lower (replace_underscore (title s)) = false.
Proof.
  unfold title.
  induction s as [|c s IH]; [reflexivity|].
  cbn [title_from replace_underscore].
  destruct (ascii_dec (to_upper c) "_") as [E|N].
  - rewrite (to_upper_underscore c E). exact IH.
  - cbn [starts_lower]. apply to_upper_not_lower.
Qed.

(** The title function of the runs on concrete sessions: [title] itself.
    The titles of these runs are ASCII, on which every [Text] agrees with
    it. *)
Definition ascii_text : Text :=
  {| py_title := title;
     py_title_ascii := fun _ _ => eq_refl;
     py_title_start := title_start |}.

Section Names.
Context `{Text}.

Lemma normalize_starts (s : string) : starts_lower (normalize s) = false.
Proof. apply py_title_start. Qed.

Lemma normalize_ascii (s : string) :
  is_ascii s = true → normalize s = replace_underscore (title s).
Proof. intros A. unfold normalize. by rewrite (py_title_ascii s A). Qed.

(** No normalized title is a name that attribute lookup finds on the
    [Client] itself: [__getattr__] gets to see every one of them. *)
Lemma normalize_not_own (s : string) :
  bool_decide (normalize s ∈ ClientInit.own_members) = false.
Proof.
  apply bool_decide_eq_false_2. intros I.
  assert (A : Forall (fun n => has_underscore n || starts_lower n = true)
                     ClientInit.own_members).
  { unfold ClientInit.own_members. repeat constructor. }
  rewrite Forall_forall in A. specialize (A _ I).
  unfold normalize at 1 in A. rewrite replace_underscore_clean in A.
  rewrite normalize_starts in A. discriminate A.
Qed.

Lemma dunder_has_underscore (k : string) :
  is_dunder k = true → has_underscore k = true.
Proof.
  destruct k as [|a [|b k]]; try discriminate. cbn [is_dunder has_underscore].
  destruct (ascii_dec a "_"); [reflexivity | discriminate].
Qed.

Lemma normalize_not_dunder (s : string) : is_dunder (normalize s) = false.
Proof.
  destruct (is_dunder (normalize s)) eqn:D; [|reflexivity].
  apply dunder_has_underscore in D. unfold normalize in D.
  by rewrite replace_underscore_clean in D.
Qed.

(** The static entry is named [Measurement]. *)
Lemma normalized_measurement :
  ClientInit.normalized_title
    (VDict {[ "title" := VStr "Measurement"; "href" := VStr "measurement" ]})
  = Ok "Measurement".
Proof.
  unfold ClientInit.normalized_title.
  change (getitem (VDict {[ "title" := VStr "Measurement";
                            "href" := VStr "measurement" ]}) "title")
    with (Ok (VStr "Measurement")).
  cbn [and_then]. by rewrite normalize_ascii.
Qed.
End Names.

Lemma spawn_subclass_ok (oid : nat) (t : string) (h : value)
    (self : Client.handle) (e : Entity.class) :
  Entity.spawn_subclass oid t h self = Ok e → e = Entity.mkClass oid t h self.
Proof.
  unfold Entity.spawn_subclass. destruct (has_nul t); [discriminate|].
  intros E. by injection E.
Qed.

Section SpawnLoop.
Context `{Text}.
Variable self : Client.handle.

Lemma spawn_loop_app (l1 l2 : list value) (oid : nat)
    (ents : gmap string Entity.class) :
  ClientInit.spawn_loop self oid (l1 ++ l2) ents
  = (ents1 <- ClientInit.spawn_loop self oid l1 ents ;;
     ClientInit.spawn_loop self (oid + length l1)%nat l2 ents1).
Proof.
  revert oid ents. induction l1 as [|child l1 IH]; intros oid ents.
  - simpl. by rewrite Nat.add_0_r.
  - cbn [app ClientInit.spawn_loop length].
    destruct (ClientInit.normalized_title child) as [t|x]; [|reflexivity].
    destruct (getitem child "href") as [h|x]; [|reflexivity].
    cbn [and_then].
    destruct (Entity.spawn_subclass oid t h self) as [e|x]; [|reflexivity].
    cbn [and_then]. rewrite IH.
    by rewrite Nat.add_succ_comm.
Qed.

(** Entries with other names leave a name alone. *)
Lemma spawn_loop_frame (l : list value) (oid : nat)
    (ents ents' : gmap string Entity.class) (t : string) :
  ClientInit.spawn_loop self oid l ents = Ok ents' →
  (∀ child, child ∈ l → ClientInit.normalized_title child ≠ Ok t) →
  ents' !! t = ents !! t.
Proof.
  revert oid ents. induction l as [|child l IH]; intros oid ents R D.
  - injection R as <-. reflexivity.
  - cbn [ClientInit.spawn_loop] in R.
    destruct (ClientInit.normalized_title child) as [t'|x] eqn:T;
      [|discriminate].
    destruct (getitem child "href") as [h|x]; [|discriminate].
    cbn [and_then] in R.
    destruct (Entity.spawn_subclass oid t' h self) as [e|x]; [|discriminate].
    cbn [and_then] in R.
    rewrite (IH _ _ R).
    + apply lookup_insert_ne. intros ->.
      apply (D child); [left | exact T].
    + intros child' I. apply D. by right.
Qed.

(** The last entry with a name is the one the name is bound to. *)
Lemma spawn_loop_last (l1 l2 : list value) (child : value) (oid : nat)
    (ents ents' : gmap string Entity.class) (t : string) (h : value) :
  ClientInit.spawn_loop self oid (l1 ++ child :: l2) ents = Ok ents' →
  ClientInit.normalized_title child = Ok t →
  getitem child "href" = Ok h →
  (∀ child', child' ∈ l2 → ClientInit.normalized_title child' ≠ Ok t) →
  ents' !! t = Some (Entity.mkClass (oid + length l1)%nat t h self).
Proof.
  intros R T Hh D. rewrite spawn_loop_app in R.
  destruct (ClientInit.spawn_loop self oid l1 ents) as [ents1|x];
    [|discriminate].
  cbn [and_then ClientInit.spawn_loop] in R. rewrite T, Hh in R.
  cbn [and_then] in R.
  destruct (Entity.spawn_subclass _ t h self) as [e|x] eqn:Sp;
    [|discriminate].
  apply spawn_subclass_ok in Sp as ->. cbn [and_then] in R.
  rewrite (spawn_loop_frame _ _ _ _ _ R D).
  apply lookup_insert_eq.
Qed.

(** Whatever a name is bound to at the end was there at the start or is
    the class made for an entry with that name, at the position the
    identity of the class tells. *)
Lemma spawn_loop_origin (l : list value) (oid : nat)
    (ents ents' : gmap string Entity.class) (n : string)
    (v : Entity.class) :
  ClientInit.spawn_loop self oid l ents = Ok ents' →
  ents' !! n = Some v →
  ents !! n = Some v
  ∨ ∃ i child,
      l !! i = Some child
      ∧ ClientInit.normalized_title child = Ok n
      ∧ getitem child "href" = Ok (Entity.link v)
      ∧ v = Entity.mkClass (oid + i)%nat n (Entity.link v) self.
Proof.
  revert oid ents. induction l as [|child l IH]; intros oid ents R L.
  - injection R as <-. by left.
  - cbn [ClientInit.spawn_loop] in R.
    destruct (ClientInit.normalized_title child) as [t|x] eqn:T;
      [|discriminate].
    destruct (getitem child "href") as [h|x] eqn:Hh; [|discriminate].
    cbn [and_then] in R.
    destruct (Entity.spawn_subclass oid t h self) as [e|x] eqn:Sp;
      [|discriminate].
    apply spawn_subclass_ok in Sp as ->. cbn [and_then] in R.
    destruct (IH _ _ R L) as [L0 | (i & child' & Li & Ti & Hi & Vi)].
    + destruct (decide (t = n)) as [->|Ne].
      * rewrite lookup_insert_eq in L0. injection L0 as <-.
        right. exists 0%nat, child. rewrite Nat.add_0_r.
        repeat split; assumption.
      * rewrite lookup_insert_ne in L0 by exact Ne. by left.
    + right. exists (S i), child'.
      rewrite <- Nat.add_succ_comm. repeat split; assumption.
Qed.

(** Every entry the loop got past has its name bound at the end. *)
Lemma spawn_loop_covers (l : list value) (oid : nat)
    (ents ents' : gmap string Entity.class) (t : string) :
  ClientInit.spawn_loop self oid l ents = Ok ents' →
  is_Some (ents !! t)
  ∨ (∃ child, child ∈ l ∧ ClientInit.normalized_title child = Ok t) →
  is_Some (ents' !! t).
Proof.
  revert oid ents. induction l as [|child l IH]; intros oid ents R C.
  - injection R as <-. destruct C as [C | (child & I & _)]; [exact C|].
    by apply elem_of_nil in I.
  - cbn [ClientInit.spawn_loop] in R.
    destruct (ClientInit.normalized_title child) as [t'|x] eqn:T;
      [|discriminate].
    destruct (getitem child "href") as [h|x]; [|discriminate].
    cbn [and_then] in R.
    destruct (Entity.spawn_subclass oid t' h self) as [e|x]; [|discriminate].
    cbn [and_then] in R. apply (IH _ _ R).
    destruct C as [C | (child' & I & T')].
    + left. destruct (decide (t' = t)) as [->|Ne].
      * rewrite lookup_insert_eq. by eexists.
      * by rewrite lookup_insert_ne.
    + apply elem_of_cons in I as [->|I].
      * left. rewrite T in T'. injection T' as ->.
        rewrite lookup_insert_eq. by eexists.
      * right. by exists child'.
Qed.

(** The loop gets past an entry only if it has a string for a title and
    something for a link. *)
Lemma spawn_loop_entries (l : list value) (oid : nat)
    (ents ents' : gmap string Entity.class) (child : value) :
  ClientInit.spawn_loop self oid l ents = Ok ents' →
  child ∈ l →
  ∃ t h, ClientInit.normalized_title child = Ok t
         ∧ getitem child "href" = Ok h.
Proof.
  revert oid ents. induction l as [|child' l IH]; intros oid ents R I.
  - by apply elem_of_nil in I.
  - cbn [ClientInit.spawn_loop] in R.
    destruct (ClientInit.normalized_title child') as [t|x] eqn:T;
      [|discriminate].
    destruct (getitem child' "href") as [h|x] eqn:Hh; [|discriminate].
    cbn [and_then] in R.
    destruct (Entity.spawn_subclass oid t h self) as [e|x]; [|discriminate].
    cbn [and_then] in R.
    apply elem_of_cons in I as [->|I]; [by exists t, h|].
    by apply (IH _ _ R).
Qed.
End SpawnLoop.

Section Discovery.
Context `{Session} `{Text}.

(** On a discovery document of the expected shape, the first loop of
    [_spawn_entities] puts the static entries behind the discovered ones. *)
Lemma append_extra (d dl : gmap string value) (l : list value) :
  d !! "_links" = Some (VDict dl) →
  dl !! "child" = Some (VList l) →
  ClientInit.append_all (VDict d) ClientInit.extra_entities
  = Ok (VDict (<["_links" :=
                  VDict (<["child" :=
                           VList (l ++ ClientInit.extra_entities)]> dl)]> d)).
Proof.
  intros L C. unfold ClientInit.extra_entities.
  cbn [ClientInit.append_all]. unfold ClientInit.append_child.
  unfold getitem at 1. rewrite L. cbn [and_then].
  unfold getitem at 1. rewrite C. cbn [and_then].
  reflexivity.
Qed.

(** A [Client] comes out of [__init__] only on a discovery document of
    the expected shape, and its classes are the ones the second loop makes
    of the discovered entries followed by the static ones. *)
Lemma init_inv (url : string) (w w' : world) (c : ClientInit.client) :
  ClientInit.__init__ url w = (Ok c, w') →
  ∃ discovered,
    child_list (discovery_response url w) = Some discovered
    ∧ ClientInit.self c = Client.mkHandle url
    ∧ ClientInit.spawn_loop (Client.mkHandle url) 0
        (discovered ++ ClientInit.extra_entities) ∅
      = Ok (ClientInit.entities c).
Proof.
  unfold ClientInit.__init__, ClientInit._spawn_entities, bind.
  rewrite send_run. unfold lift, ret, child_list, discovery_response.
  cbn [Client.url].
  destruct (raise_for_status _); [|discriminate].
  unfold json_loads.
  destruct (body _) as [[| | | | |d]|]; try discriminate.
  destruct (d !! "_links") as [[| | | | |dl]|] eqn:L;
    try (cbn [ClientInit.append_all ClientInit.extra_entities];
         unfold ClientInit.append_child, getitem at 1; rewrite L;
         discriminate).
  destruct (dl !! "child") as [[| | | |l|]|] eqn:C;
    try (cbn [ClientInit.append_all ClientInit.extra_entities];
         unfold ClientInit.append_child, getitem at 1; rewrite L;
         cbn [and_then]; unfold getitem at 1; rewrite C;
         discriminate).
  rewrite (append_extra d dl l L C).
  unfold getitem at 1. rewrite lookup_insert_eq.
  unfold getitem at 1. rewrite lookup_insert_eq.
  cbn [py_iter].
  destruct (ClientInit.spawn_loop _ _ _ _) as [ents|x] eqn:R;
    [|discriminate].
  intros E. injection E as <- _. exists l. cbn. auto.
Qed.

(** The positions of a list split it. *)
Lemma split_at {A} (l : list A) (i : nat) (x : A) :
  l !! i = Some x →
  l = (take i l ++ x :: drop (S i) l)%list ∧ length (take i l) = i.
Proof.
  intros L. split; [by rewrite take_drop_middle|].
  apply length_take_le. apply lookup_lt_Some in L. lia.
Qed.

Lemma later_entries {A} (l : list A) (i : nat) (y : A) :
  y ∈ drop (S i) l → ∃ j, (i < j)%nat ∧ l !! j = Some y.
Proof.
  intros I. apply list_elem_of_lookup in I as [k K].
  rewrite lookup_drop in K. exists (S i + k)%nat. split; [lia | exact K].
Qed.

(** The binding of a name is the class made for the last entry of the
    loop's list that has the name. *)
Lemma last_entry_bound (self : Client.handle) (merged : list value)
    (ents : gmap string Entity.class) (i : nat) (child : value)
    (t : string) (h : value) :
  ClientInit.spawn_loop self 0 merged ∅ = Ok ents →
  merged !! i = Some child →
  ClientInit.normalized_title child = Ok t →
  getitem child "href" = Ok h →
  (∀ j child', (i < j)%nat → merged !! j = Some child' →
               ClientInit.normalized_title child' ≠ Ok t) →
  ents !! t = Some (Entity.mkClass i t h self).
Proof.
  intros R L T Hh D.
  destruct (split_at merged i child L) as [S Len].
  rewrite S in R.
  rewrite (spawn_loop_last self _ _ _ _ _ _ _ _ R T Hh).
  - by rewrite Len.
  - intros child' I. apply later_entries in I as (j & Lt & Lj).
    by apply (D j).
Qed.
End Discovery.

Section Catalogue.
Context `{Session} `{Text}.

(** Every class in the map of a [Client] is the one made for the entry at
    the position its identity tells, under the normalized title of that
    entry. *)
Lemma binding_origin (self : Client.handle) (merged : list value)
    (ents : gmap string Entity.class) (n : string) (v : Entity.class) :
  ClientInit.spawn_loop self 0 merged ∅ = Ok ents →
  ents !! n = Some v →
  ∃ child,
    merged !! Entity.class_id v = Some child
    ∧ ClientInit.normalized_title child = Ok n
    ∧ getitem child "href" = Ok (Entity.link v)
    ∧ Entity.name v = n
    ∧ Entity.server v = self.
Proof.
  intros R L.
  destruct (spawn_loop_origin self _ _ _ _ _ _ R L)
    as [E | (i & child & Li & Ti & Hi & Vi)].
  - rewrite lookup_empty in E. discriminate.
  - assert (Ei : Entity.class_id v = i) by (rewrite Vi; reflexivity).
    assert (En : Entity.name v = n) by (rewrite Vi; reflexivity).
    assert (Es : Entity.server v = self) by (rewrite Vi; reflexivity).
    exists child. rewrite Ei. auto.
Qed.

Lemma getattr_class (c : ClientInit.client) (n : string)
    (v : Entity.class) :
  ClientInit.getattr c n = Ok (ClientInit.EntityClass v) →
  ClientInit.entities c !! n = Some v.
Proof.
  unfold ClientInit.getattr, ClientInit.__getattr__.
  destruct (bool_decide _); [discriminate|].
  destruct (is_dunder n); [discriminate|].
  destruct (ClientInit.entities c !! n); [|discriminate].
  intros E. by injection E as ->.
Qed.

(** C1, as the code has it.  Let a [Client] be made on a discovery
    response, and take the list of the discovered entries followed by the
    static ones.  Every entry of the list has a title and a link.  For
    every entry that no later entry shares its normalized title with, the
    attribute of the [Client] named by the normalized title (the title in
    title case with the underscores taken out) is an [Entity] subclass
    whose [link] is the [href] of the entry and whose [server] is that
    [Client]; it is the class made for that very entry.  Classes found
    under two different attribute names are two classes. *)
Theorem last_entries_are_exposed (url : string) (w w' : world)
    (c : ClientInit.client) :
  ClientInit.__init__ url w = (Ok c, w') →
  ∃ discovered,
    child_list (discovery_response url w) = Some discovered
    ∧ let merged := (discovered ++ ClientInit.extra_entities)%list in
      (∀ i child,
         merged !! i = Some child →
         ∃ raw h,
           getitem child "title" = Ok (VStr raw)
           ∧ getitem child "href" = Ok h
           ∧ ((∀ j child', (i < j)%nat → merged !! j = Some child' →
                 ClientInit.normalized_title child'
                 ≠ Ok (normalize raw)) →
              ∃ cl,
                ClientInit.getattr c (normalize raw)
                = Ok (ClientInit.EntityClass cl)
                ∧ Entity.link cl = h
                ∧ Entity.server cl = ClientInit.self c
                ∧ Entity.name cl = normalize raw
                ∧ Entity.class_id cl = i))
      ∧ (∀ n1 n2 c1 c2,
           ClientInit.getattr c n1 = Ok (ClientInit.EntityClass c1) →
           ClientInit.getattr c n2 = Ok (ClientInit.EntityClass c2) →
           n1 ≠ n2 →
           Entity.class_id c1 ≠ Entity.class_id c2).
Proof.
  intros I. destruct (init_inv url w w' c I) as (discovered & D & S & R).
  exists discovered. split; [exact D|]. intros merged. split.
  - intros i child L.
    destruct (spawn_loop_entries _ _ _ _ _ child R) as (t & h & T & Hh).
    { apply list_elem_of_lookup. by exists i. }
    unfold ClientInit.normalized_title in T.
    destruct (getitem child "title") as [[| | |raw| |]|] eqn:G;
      try discriminate T.
    cbn [and_then] in T. injection T as <-.
    exists raw, h. split; [reflexivity|]. split; [exact Hh|].
    intros Last.
    assert (T : ClientInit.normalized_title child = Ok (normalize raw)).
    { unfold ClientInit.normalized_title. by rewrite G. }
    pose proof (last_entry_bound _ _ _ _ _ _ _ R L T Hh Last) as B.
    exists (Entity.mkClass i (normalize raw) h (Client.mkHandle url)).
    unfold ClientInit.getattr, ClientInit.__getattr__.
    rewrite normalize_not_own, normalize_not_dunder, B, S. cbn. auto.
  - intros n1 n2 c1 c2 G1 G2 Ne Eq.
    apply getattr_class in G1, G2.
    destruct (binding_origin _ _ _ _ _ R G1) as (ch1 & L1 & T1 & _).
    destruct (binding_origin _ _ _ _ _ R G2) as (ch2 & L2 & T2 & _).
    rewrite Eq in L1. rewrite L1 in L2. injection L2 as ->.
    rewrite T1 in T2. by injection T2.
Qed.

(** C10.  The map of classes of a [Client] has a binding for a name
    exactly when some entry of the merged list (discovered entries, then
    static ones) has that normalized title, and the binding is the class
    made for the last such entry.  The static entry [Measurement] comes
    last of all: the name [Measurement] is bound to the class with link
    [measurement] whatever the server listed. *)
Theorem later_entry_wins (url : string) (w w' : world)
    (c : ClientInit.client) :
  ClientInit.__init__ url w = (Ok c, w') →
  ∃ discovered,
    child_list (discovery_response url w) = Some discovered
    ∧ let merged := (discovered ++ ClientInit.extra_entities)%list in
      (∀ n, is_Some (ClientInit.entities c !! n)
            ↔ ∃ child, child ∈ merged
                       ∧ ClientInit.normalized_title child = Ok n)
      ∧ (∀ i child t h,
           merged !! i = Some child →
           ClientInit.normalized_title child = Ok t →
           getitem child "href" = Ok h →
           (∀ j child', (i < j)%nat → merged !! j = Some child' →
              ClientInit.normalized_title child' ≠ Ok t) →
           ClientInit.entities c !! t
           = Some (Entity.mkClass i t h (ClientInit.self c)))
      ∧ ClientInit.entities c !! "Measurement"
        = Some (Entity.mkClass (length discovered) "Measurement"
                  (VStr "measurement") (ClientInit.self c)).
Proof.
  intros I. destruct (init_inv url w w' c I) as (discovered & D & S & R).
  exists discovered. split; [exact D|]. intros merged. rewrite S.
  split; [|split].
  - intros n. split.
    + intros [v L].
      destruct (binding_origin _ _ _ _ _ R L) as (child & Lc & T & _).
      exists child. split; [|exact T].
      apply list_elem_of_lookup. by eexists.
    + intros C. apply (spawn_loop_covers _ _ _ _ _ _ R). by right.
  - intros i child t h L T Hh Last.
    by apply (last_entry_bound _ merged _ i child).
  - unfold ClientInit.extra_entities in R.
    rewrite (spawn_loop_last _ _ _ _ _ _ _ "Measurement"
               (VStr "measurement") R).
    + reflexivity.
    + apply normalized_measurement.
    + reflexivity.
    + intros child' I'. by apply elem_of_nil in I'.
Qed.
End Catalogue.


(** ** Runs on concrete sessions *)

(** The C5 statement at [Measurement.get_by_id(1)]. *)
Lemma get_by_id_measurement_run :
  Entity.link Demo.Measurement = VStr "measurement"
  ∧ @Entity.get_by_id Demo.catalogue Demo.builtins Demo.Measurement
      (VInt 1) VNone (@Demo.w0 Demo.catalogue tt)
    = (Raise AssertionError, @Demo.w0 Demo.catalogue tt).
Proof.
  split; [reflexivity|].
  apply (@get_by_id_measurement_refused Demo.catalogue Demo.builtins).
  reflexivity.
Defined.

(** The C7 statement at [Book(title='Dune')], which was never created. *)
Lemma save_remove_need_id_run :
  let e := Entity.__init__ Demo.Book {[ "title" := VStr "Dune" ]} in
  Entity.fields e !! "_id" = None
  ∧ @Entity.save Demo.created Demo.builtins e (@Demo.w0 Demo.created tt)
    = (Raise (KeyError "_id"), @Demo.w0 Demo.created tt)
  ∧ @Entity.remove Demo.created Demo.builtins e (@Demo.w0 Demo.created tt)
    = (Raise (KeyError "_id"), @Demo.w0 Demo.created tt).
Proof.
  intros e. split; [reflexivity|].
  apply (@save_remove_need_id Demo.created Demo.builtins e).
  reflexivity.
Defined.

(** The C6 statement at a row that came from the server: the PUT goes to
    [book/7] with the title alone and the etag of the row. *)
Lemma save_puts_regular_fields_run :
  let e := Entity.__init__ Demo.Book
             {[ "_id" := VInt 7; "_etag" := VStr "e1";
                "title" := VStr "Dune" ]} in
  Entity.fields e !! "_id" = Some (VInt 7)
  ∧ sent (@Entity.save Demo.created Demo.builtins e
            (@Demo.w0 Demo.created tt)).2
    = [ mkRequest PUT "http://wenu/book/7"
          (Some (VDict {[ "title" := VStr "Dune" ]}))
          (Some (VStr "e1")) ].
Proof.
  intros e. split; [reflexivity|].
  apply (@save_puts_regular_fields Demo.created Demo.builtins e (VInt 7)
           (@Demo.w0 Demo.created tt)).
  reflexivity.
Defined.

(** An [_etag] entry that holds [None] is no precondition: the PUT carries
    no [If-Match]. *)
Lemma save_null_etag_unconditional :
  let e := Entity.__init__ Demo.Book
             {[ "_id" := VInt 7; "_etag" := VNone ]} in
  Entity.fields e !! "_etag" = Some VNone
  ∧ req_if_match <$> sent (@Entity.save Demo.created Demo.builtins e
                             (@Demo.w0 Demo.created tt)).2
    = [ None ].
Proof. split; reflexivity. Qed.

(** The C8 statement at a fresh [Book(title='Dune')]: the POST carries the
    mapping, and the identity the server assigned is readable afterwards. *)
Lemma create_posts_and_merges_run :
  let e := Entity.__init__ Demo.Book {[ "title" := VStr "Dune" ]} in
  let d : gmap string value := {[ "_id" := VInt 7; "_etag" := VStr "e1" ]} in
  Entity.link (Entity.cls e) = VStr "book"
  ∧ sent (@Entity.create Demo.created e
            (@Demo.w0 Demo.created tt)).2
    = [ mkRequest POST "http://wenu/book"
          (Some (VDict {[ "title" := VStr "Dune" ]})) None ]
  ∧ ∃ e', (@Entity.create Demo.created e
             (@Demo.w0 Demo.created tt)).1 = Ok (VDict d, e')
          ∧ Entity.getattr e' "_id" = Ok (Entity.Plain (VInt 7))
          ∧ Entity.getattr e' "title" = Ok (Entity.Plain (VStr "Dune")).
Proof.
  intros e d. split; [reflexivity|].
  destruct (@create_posts_and_merges Demo.created e "book"
              (@Demo.w0 Demo.created tt) eq_refl) as [S Merge].
  split; [exact S|].
  destruct (Merge d eq_refl eq_refl) as (e' & R & _ & A & In & Out).
  exists e'. split; [exact R|].
  unfold Entity.getattr, Entity.__getattr__. rewrite A.
  rewrite (In "_id" (VInt 7) eq_refl).
  rewrite (Out "title" eq_refl).
  split; reflexivity.
Defined.

(** C3.  The claim holds of what [delete] is written to do and fails on
    the code where the GET is answered with 405 and the DELETE with 204:
    the status of the GET is never checked, no [HTTPError] is raised, and
    the call returns the error document of the GET as if it were the
    row. *)
Theorem delete_passes_over_failed_get :
  status_code (@respond Demo.get_fails
                 (mkRequest GET "http://wenu/book/7" None None) tt).1 = 405
  ∧ (@Client.delete Demo.get_fails Demo.server "book/7" VNone
       (@Demo.w0 Demo.get_fails tt)).1
    = Ok (VDict {[ "_status" := VStr "ERR" ]})
  ∧ sent (@Client.delete Demo.get_fails Demo.server "book/7" VNone
            (@Demo.w0 Demo.get_fails tt)).2
    = [ mkRequest GET "http://wenu/book/7" None None;
        mkRequest DELETE "http://wenu/book/7" None None ].
Proof. repeat split; reflexivity. Qed.

(** C4 as stated fails on a server that answers 404: the calls of [where]
    and of [embedded] raise themselves, and hand no sequence back. *)
Lemma where_raises_before_iteration :
  (@Entity.where_ Demo.not_found Demo.builtins Demo.Book VNone ∅
     (@Demo.w0 Demo.not_found tt)).1 = Raise (HTTPError 404)
  ∧ (@Entity.embedded Demo.not_found Demo.builtins Demo.Book VNone ∅
       (@Demo.w0 Demo.not_found tt)).1 = Raise (HTTPError 404).
Proof. split; reflexivity. Qed.

(** The C4 statement, as the code has it, on that server. *)
Lemma where_embedded_raise_run :
  is_error 404 = true
  ∧ @Entity.where_ Demo.not_found Demo.builtins Demo.Book VNone ∅
      (@Demo.w0 Demo.not_found tt)
    = (Raise (HTTPError 404),
       @mkWorld Demo.not_found tt
         [ mkRequest GET "http://wenu/book?where={}" None None ])
  ∧ @Entity.embedded Demo.not_found Demo.builtins Demo.Book VNone ∅
      (@Demo.w0 Demo.not_found tt)
    = (Raise (HTTPError 404),
       @mkWorld Demo.not_found tt
         [ mkRequest GET "http://wenu/book?embedded={}" None None ]).
Proof.
  split; [reflexivity|].
  destruct (@where_embedded_raise_when_called Demo.not_found Demo.builtins
              Demo.Book VNone ∅ (@Demo.w0 Demo.not_found tt)) as [W E].
  split; [exact (W eq_refl) | exact (E eq_refl)].
Defined.

(** The C9 statement on a server with two rows: [embedded] hands back a
    generator that gives the two instances in the order of the rows. *)
Lemma embedded_is_where_run :
  let rows := [ VDict {[ "a" := VInt 1 ]}; VDict {[ "a" := VInt 2 ]} ] in
  let g := {| Entity.gen_cls := Demo.Book; Entity.pending := rows |} in
  (@Entity.embedded Demo.two_rows Demo.builtins Demo.Book VNone ∅
     (@Demo.w0 Demo.two_rows tt)).1 = Ok g
  ∧ outcomes 3 g
    = [ Ok (Entity.__init__ Demo.Book {[ "a" := VInt 1 ]});
        Ok (Entity.__init__ Demo.Book {[ "a" := VInt 2 ]});
        Raise StopIteration ].
Proof.
  intros rows g.
  destruct (@embedded_is_where_by_parameter Demo.two_rows Demo.builtins
              Demo.Book VNone ∅ (@Demo.w0 Demo.two_rows tt))
    as (_ & E & Q).
  destruct (Q "embedded") as [_ R].
  destruct (R {[ "_items" := VList rows ]} rows eq_refl eq_refl eq_refl)
    as [G O].
  split.
  - rewrite E. exact G.
  - apply O. repeat constructor.
Defined.

Lemma init_catalogue :
  @ClientInit.__init__ Demo.catalogue ascii_text "http://wenu"
    (@Demo.w0 Demo.catalogue tt) = (Ok Demo.client, Demo.w1).
Proof. vm_compute. reflexivity. Qed.

(** On entries with ASCII titles the classes made do not depend on what
    [str.title] does with other text. *)
Lemma normalized_title_ascii (T : Text) (child : value) :
  ascii_titled child →
  @ClientInit.normalized_title T child
  = @ClientInit.normalized_title ascii_text child.
Proof.
  unfold ascii_titled, ClientInit.normalized_title.
  destruct (getitem child "title") as [[]|]; cbn; try reflexivity.
  intros A. unfold normalize. cbn [py_title ascii_text].
  by rewrite (py_title_ascii _ A).
Qed.

Lemma spawn_loop_ascii (T : Text) (self : Client.handle)
    (children : list value) :
  Forall ascii_titled children →
  ∀ oid e, @ClientInit.spawn_loop T self oid children e
           = @ClientInit.spawn_loop ascii_text self oid children e.
Proof.
  induction 1 as [|c cs A _ IH]; intros oid e; [reflexivity|].
  cbn [ClientInit.spawn_loop]. rewrite (normalized_title_ascii T c A).
  destruct (ClientInit.normalized_title c); cbn; [|reflexivity].
  destruct (getitem c "href"); cbn; [|reflexivity].
  destruct (Entity.spawn_subclass _ _ _ _); cbn; [|reflexivity].
  apply IH.
Qed.

(** The client of [Demo.catalogue] is the same under every [Text]: the
    titles the server lists are ASCII. *)
Lemma init_catalogue_any_text (T : Text) :
  @ClientInit.__init__ Demo.catalogue T "http://wenu"
    (@Demo.w0 Demo.catalogue tt) = (Ok Demo.client, Demo.w1).
Proof.
  unfold ClientInit.__init__, ClientInit._spawn_entities.
  pattern (@ClientInit.spawn_loop T).
  match goal with
  | |- ?P _ =>
      assert (G : ∀ f,
        (∀ self oid children e, Forall ascii_titled children →
           f self oid children e
           = @ClientInit.spawn_loop ascii_text self oid children e) → P f)
  end.
  { intros f E. cbv beta.
    match goal with
    | |- ?L = _ => let L' := eval vm_compute in L in change L with L'
    end.
    rewrite E by (repeat constructor).
    vm_compute. reflexivity. }
  apply G. intros. by apply spawn_loop_ascii.
Qed.

(** C1 as stated fails for the first entry the server of [Demo.catalogue]
    lists, titled [measurement] with the link [sensor_log]: the attribute
    with its normalized title, [Measurement], is the class of the static
    entry, whose link is [measurement].  (The titles are ASCII: [str.title]
    is [title] on them.) *)
Lemma discovered_measurement_is_hidden :
  @ClientInit.__init__ Demo.catalogue ascii_text "http://wenu"
    (@Demo.w0 Demo.catalogue tt) = (Ok Demo.client, Demo.w1)
  ∧ child_list (@discovery_response Demo.catalogue "http://wenu"
                  (@Demo.w0 Demo.catalogue tt))
    = Some [ Demo.resource "measurement" "sensor_log";
             Demo.resource "book" "book" ]
  ∧ @normalize ascii_text "measurement" = "Measurement"
  ∧ ClientInit.getattr Demo.client "Measurement"
    = Ok (ClientInit.EntityClass Demo.Measurement)
  ∧ Entity.link Demo.Measurement = VStr "measurement"
  ∧ Entity.link Demo.Measurement ≠ VStr "sensor_log".
Proof.
  split; [exact init_catalogue|].
  split; [reflexivity|]. split; [reflexivity|].
  split; [vm_compute; reflexivity|].
  split; [reflexivity|]. cbn. discriminate.
Qed.

(** The C1 statement, as the code has it, on that server: [Book] is the
    class made for the second entry. *)
Lemma last_entries_are_exposed_run :
  @ClientInit.__init__ Demo.catalogue ascii_text "http://wenu"
    (@Demo.w0 Demo.catalogue tt) = (Ok Demo.client, Demo.w1)
  ∧ ∃ cl,
      ClientInit.getattr Demo.client "Book" = Ok (ClientInit.EntityClass cl)
      ∧ Entity.link cl = VStr "book"
      ∧ Entity.server cl = ClientInit.self Demo.client
      ∧ Entity.class_id cl = 1%nat.
Proof.
  split; [exact init_catalogue|].
  destruct (@last_entries_are_exposed Demo.catalogue ascii_text _ _ _ _ init_catalogue)
    as (discovered & D & Entries & _).
  vm_compute in D. injection D as <-.
  destruct (Entries 1%nat (Demo.resource "book" "book") eq_refl)
    as (raw & h & T & Hh & Exposed).
  vm_compute in T. injection T as <-.
  vm_compute in Hh. injection Hh as <-.
  destruct Exposed as (cl & G & L & S & N & I).
  { intros j child' Lt Lj. destruct j as [|[|[|j]]]; try lia.
    - vm_compute in Lj. injection Lj as <-. vm_compute. discriminate.
    - vm_compute in Lj. discriminate Lj. }
  exists cl. change (@normalize ascii_text "book") with "Book" in G. auto.
Defined.

(** The C10 statement on that server: [Measurement] is the class made for
    the third and last entry, the static one. *)
Lemma later_entry_wins_run :
  @ClientInit.__init__ Demo.catalogue ascii_text "http://wenu"
    (@Demo.w0 Demo.catalogue tt) = (Ok Demo.client, Demo.w1)
  ∧ ClientInit.entities Demo.client !! "Measurement"
    = Some (Entity.mkClass 2 "Measurement" (VStr "measurement")
              (ClientInit.self Demo.client)).
Proof.
  split; [exact init_catalogue|].
  destruct (@later_entry_wins Demo.catalogue ascii_text _ _ _ _ init_catalogue)
    as (discovered & D & _ & _ & Shadow).
  vm_compute in D. injection D as <-.
  exact Shadow.
Defined.


(** * Further properties of the code *)

(** ** Names of resources *)

Lemma to_lower_facts (c : ascii) :
  to_upper (to_lower c) = to_upper c
  ∧ to_lower (to_lower c) = to_lower c
  ∧ is_cased (to_lower c) = is_cased c.
Proof. destruct c as [[] [] [] [] [] [] [] []]; repeat split; reflexivity. Qed.

Lemma title_from_lower (b : bool) (s : string) :
  title_from b (ascii_lower s) = title_from b s.
Proof.
  revert b. induction s as [|c s IH]; intros b; [reflexivity|].
  cbn [ascii_lower title_from].
  destruct (to_lower_facts c) as (U & L & C).
  rewrite U, L, C, IH. reflexivity.
Qed.

(** X1.  For titles made of ASCII characters, the name under which a
    resource is exposed does not depend on the case of the letters: two
    ASCII titles that are equal once lowered have the same normalized
    name (and so compete for one attribute of the [Client]). *)
Theorem normalize_ignores_case `{Text} (s1 s2 : string) :
  is_ascii s1 = true →
  is_ascii s2 = true →
  ascii_lower s1 = ascii_lower s2 →
  normalize s1 = normalize s2.
Proof.
  intros A1 A2 E. rewrite (normalize_ascii s1 A1), (normalize_ascii s2 A2).
  unfold title.
  rewrite <- (title_from_lower false s1), <- (title_from_lower false s2).
  by rewrite E.
Qed.

Lemma normalize_ignores_case_run :
  (is_ascii "BOOK_shelf" = true ∧ is_ascii "book_Shelf" = true
   ∧ ascii_lower "BOOK_shelf" = ascii_lower "book_Shelf")
  ∧ @normalize ascii_text "BOOK_shelf" = @normalize ascii_text "book_Shelf".
Proof.
  split; [repeat split|].
  apply (@normalize_ignores_case ascii_text); reflexivity.
Defined.

(** X2.  Whatever the title, its normalized name has no underscore, hence
    no two leading underscores, and it is none of the names that attribute
    lookup finds on the [Client] itself: a resource never hides [get],
    [url] or any other member of the [Client], and [client.name] is
    decided by the map of classes alone: the class bound to the name, or
    [AttributeError]. *)
Theorem normalized_names_reach_the_classes `{Text} (s : string)
    (c : ClientInit.client) :
  has_underscore (normalize s) = false
  ∧ is_dunder (normalize s) = false
  ∧ (normalize s ∉ ClientInit.own_members)
  ∧ ClientInit.getattr c (normalize s)
    = match ClientInit.entities c !! normalize s with
      | Some e => Ok (ClientInit.EntityClass e)
      | None => Raise (AttributeError (normalize s))
      end.
Proof.
  split; [apply replace_underscore_clean|].
  split; [apply normalize_not_dunder|].
  split; [apply (bool_decide_eq_false_1 _ (normalize_not_own s))|].
  unfold ClientInit.getattr, ClientInit.__getattr__.
  rewrite normalize_not_own, normalize_not_dunder.
  destruct (ClientInit.entities c !! normalize s); reflexivity.
Qed.

(** ** The attribute protocol of instances *)

Lemma fields_not_member : Entity.is_class_member "fields" = false.
Proof. reflexivity. Qed.

(** X3.  Reading back what was assigned.  For a name without two leading
    underscores that is neither [fields] nor a member of the class nor
    already an instance attribute, [entity.name = v] succeeds and
    [entity.name] then reads [v], whether the name is a key of the field
    mapping (the entry is rewritten) or not (an instance attribute is
    made). *)
Theorem setattr_then_getattr (e : Entity.instance) (k : string)
    (v : value) :
  is_dunder k = false →
  k ≠ "fields" →
  Entity.is_class_member k = false →
  Entity.attrs e !! k = None →
  ∃ e', Entity.__setattr__ e k v = Ok e'
        ∧ Entity.getattr e' k = Ok (Entity.Plain v).
Proof.
  intros _ N M A. unfold Entity.__setattr__.
  assert (Nb : String.eqb k "fields" = false) by by apply String.eqb_neq.
  destruct (bool_decide (is_Some (Entity.attrs e !! "initialized"))
            && bool_decide (is_Some (Entity.fields e !! k))).
  - eexists. split; [reflexivity|].
    unfold Entity.getattr, Entity.__getattr__. cbn [Entity.fields Entity.attrs].
    rewrite Nb, A, M, lookup_insert_eq. reflexivity.
  - rewrite Nb, M. eexists. split; [reflexivity|].
    unfold Entity.getattr. cbn [Entity.fields Entity.attrs].
    rewrite Nb, lookup_insert_eq. reflexivity.
Qed.

Lemma setattr_then_getattr_run :
  let e := Entity.__init__ Demo.Book {[ "title" := VStr "Dune" ]} in
  (is_dunder "title" = false
   ∧ "title" ≠ "fields" ∧ Entity.is_class_member "title" = false
   ∧ Entity.attrs e !! "title" = None)
  ∧ ∃ e', Entity.__setattr__ e "title" (VStr "Emma") = Ok e'
          ∧ Entity.getattr e' "title" = Ok (Entity.Plain (VStr "Emma")).
Proof.
  intros e.
  assert (P : is_dunder "title" = false
              ∧ "title" ≠ "fields" ∧ Entity.is_class_member "title" = false
              ∧ Entity.attrs e !! "title" = None).
  { split; [reflexivity|]. split; [discriminate|]. split; reflexivity. }
  split; [exact P|].
  destruct P as (D & N & M & A).
  exact (setattr_then_getattr e "title" (VStr "Emma") D N M A).
Defined.

(** X4.  Attribute assignment never adds a key to the field mapping nor
    takes one away.  Whenever [entity.name = v] succeeds for a name other
    than [fields] (and without two leading underscores), the mapping has
    the keys it had, every entry under another key is as it was, and when
    the name is no key the mapping, and with it what [regular_fields]
    returns and [save] sends, is untouched. *)
Theorem setattr_keeps_the_keys (e e' : Entity.instance) (k : string)
    (v : value) :
  is_dunder k = false →
  Entity.__setattr__ e k v = Ok e' →
  k ≠ "fields" →
  Entity.cls e' = Entity.cls e
  ∧ dom (Entity.fields e') = dom (Entity.fields e)
  ∧ (∀ k', k' ≠ k → Entity.fields e' !! k' = Entity.fields e !! k')
  ∧ (Entity.fields e !! k = None →
     Entity.fields e' = Entity.fields e
     ∧ Entity.regular_fields e' = Entity.regular_fields e).
Proof.
  intros _ S N. unfold Entity.__setattr__ in S.
  assert (Nb : String.eqb k "fields" = false) by by apply String.eqb_neq.
  destruct (bool_decide (is_Some (Entity.attrs e !! "initialized"))) eqn:I;
    destruct (bool_decide (is_Some (Entity.fields e !! k))) eqn:F;
    cbn [andb] in S; rewrite ?Nb in S.
  - injection S as <-. cbn [Entity.cls Entity.fields].
    apply bool_decide_eq_true_1 in F.
    split; [reflexivity|]. split; [by apply dom_insert_lookup_L|].
    split; [intros k' Nk; by apply lookup_insert_ne|].
    intros A. rewrite A in F. by destruct F.
  - destruct (Entity.is_class_member k); [discriminate|].
    injection S as <-. cbn. auto.
  - destruct (Entity.is_class_member k); [discriminate|].
    injection S as <-. cbn. auto.
  - destruct (Entity.is_class_member k); [discriminate|].
    injection S as <-. cbn. auto.
Qed.

Lemma setattr_keeps_the_keys_run :
  let e := Entity.__init__ Demo.Book {[ "title" := VStr "Dune" ]} in
  let e' := {| Entity.cls := Demo.Book;
               Entity.fields := {[ "title" := VStr "Dune" ]};
               Entity.attrs := {[ "initialized" := VBool true;
                                  "titel" := VStr "Emma" ]} |} in
  (is_dunder "titel" = false
   ∧ Entity.__setattr__ e "titel" (VStr "Emma") = Ok e'
   ∧ "titel" ≠ "fields")
  ∧ dom (Entity.fields e') = dom (Entity.fields e).
Proof.
  intros e e'.
  assert (S : Entity.__setattr__ e "titel" (VStr "Emma") = Ok e')
    by (vm_compute; reflexivity).
  assert (N : "titel" ≠ "fields") by discriminate.
  split; [by repeat split|].
  exact (proj1 (proj2 (setattr_keeps_the_keys e e' "titel" (VStr "Emma")
                         eq_refl S N))).
Defined.

(** X5.  A column named like a member of the class ([link], [server],
    [save], ...) cannot be read as an attribute: lookup finds the member of
    the class and never gets to [__getattr__].  Assignment does reach the
    column, since [__setattr__] looks into the field mapping first; the
    value written is in the mapping and still not what the attribute
    reads. *)
Theorem class_member_hides_column (e : Entity.instance) (k : string) :
  Entity.is_class_member k = true →
  Entity.attrs e !! k = None →
  Entity.getattr e k = Ok (Entity.Member k)
  ∧ ∀ old v,
      is_Some (Entity.attrs e !! "initialized") →
      Entity.fields e !! k = Some old →
      ∃ e', Entity.__setattr__ e k v = Ok e'
            ∧ Entity.fields e' !! k = Some v
            ∧ Entity.getattr e' k = Ok (Entity.Member k).
Proof.
  intros M A.
  assert (Nb : String.eqb k "fields" = false).
  { apply String.eqb_neq. intros ->. rewrite fields_not_member in M.
    discriminate M. }
  assert (G : ∀ f, Entity.getattr {| Entity.cls := Entity.cls e;
                                     Entity.fields := f;
                                     Entity.attrs := Entity.attrs e |} k
                   = Ok (Entity.Member k)).
  { intros f. unfold Entity.getattr. cbn [Entity.attrs].
    by rewrite Nb, A, M. }
  split.
  - unfold Entity.getattr. by rewrite Nb, A, M.
  - intros old v I F. rewrite (setattr_field e k old v I F).
    eexists. split; [reflexivity|]. split; [apply lookup_insert_eq|].
    apply G.
Qed.

Lemma class_member_hides_column_run :
  let e := Entity.__init__ Demo.Book {[ "link" := VStr "http://x" ]} in
  (Entity.is_class_member "link" = true ∧ Entity.attrs e !! "link" = None)
  ∧ Entity.getattr e "link" = Ok (Entity.Member "link").
Proof.
  intros e.
  assert (M : Entity.is_class_member "link" = true) by reflexivity.
  assert (A : Entity.attrs e !! "link" = None) by reflexivity.
  split; [by split|].
  exact (proj1 (class_member_hides_column e "link" M A)).
Defined.

(** X6.  What a constructed instance reads.  The class accepts a row only
    if it is a JSON object without the key [self]; the instance then has
    the row as its field mapping, and for every name without two leading
    underscores that is not [fields], [initialized] or a member of the
    class, [entity.name] is the value of the column of that name, and
    [AttributeError] when the row has no such column. *)
Theorem constructed_instance_reads_its_row (c : Entity.class) (row : value)
    (e : Entity.instance) :
  Entity.construct c row = Ok e →
  ∃ d, row = VDict d
       ∧ d !! "self" = None
       ∧ Entity.cls e = c
       ∧ Entity.fields e = d
       ∧ ∀ k, is_dunder k = false →
              k ≠ "fields" → k ≠ "initialized" →
              Entity.is_class_member k = false →
              Entity.getattr e k
              = match d !! k with
                | Some v => Ok (Entity.Plain v)
                | None => Raise (AttributeError k)
                end.
Proof.
  unfold Entity.construct. destruct row as [| | | | |d]; try discriminate.
  destruct (d !! "self") eqn:S; [discriminate|].
  intros E. injection E as <-. exists d.
  split; [reflexivity|]. split; [exact S|]. split; [reflexivity|].
  split; [reflexivity|].
  intros k _ N I M.
  unfold Entity.getattr, Entity.__init__, Entity.__getattr__.
  cbn [Entity.fields Entity.attrs].
  assert (Nb : String.eqb k "fields" = false) by by apply String.eqb_neq.
  rewrite Nb, lookup_singleton_ne by (intros X; by apply I).
  rewrite M. destruct (d !! k); reflexivity.
Qed.

Lemma constructed_instance_reads_its_row_run :
  let row := VDict {[ "_id" := VInt 7; "title" := VStr "Dune" ]} in
  let e := Entity.__init__ Demo.Book
             {[ "_id" := VInt 7; "title" := VStr "Dune" ]} in
  Entity.construct Demo.Book row = Ok e
  ∧ Entity.getattr e "title" = Ok (Entity.Plain (VStr "Dune"))
  ∧ Entity.getattr e "author" = Raise (AttributeError "author").
Proof.
  intros row e.
  assert (C : Entity.construct Demo.Book row = Ok e) by reflexivity.
  split; [exact C|].
  destruct (constructed_instance_reads_its_row Demo.Book row e C)
    as (d & R & _ & _ & F & G).
  injection R as <-.
  split.
  - rewrite (G "title"); [reflexivity | reflexivity | discriminate
                          | discriminate | reflexivity].
  - rewrite (G "author"); [reflexivity | reflexivity | discriminate
                           | discriminate | reflexivity].
Defined.

(** ** Instances and the server *)

Section MoreRemote.
Context `{Session} `{Builtins}.

(** X7.  With [_id] in the field mapping, [remove] sends two requests, a
    GET and then a DELETE to [{link}/{_id}], the DELETE with the [_etag] of
    the mapping as [If-Match] unless it is missing or [None].  It raises
    [HTTPError] when the status of the DELETE is an error status, whatever
    the status of the GET; otherwise it returns what the content the GET
    fetched decodes to under the charset guessed from its bytes (not under
    the encoding the server declared), and the instance is as it was:
    nothing marks it as removed. *)
Theorem remove_fetches_then_deletes (e : Entity.instance) (_id : value)
    (w : world) :
  Entity.fields e !! "_id" = Some _id →
  let u := join (Client.url (Entity.server (Entity.cls e)))
                (fmt (Entity.link (Entity.cls e)) ++ "/" ++ fmt _id) in
  let g := mkRequest GET u None None in
  let d := mkRequest DELETE u None
             (match Entity.fields e !! "_etag" with
              | Some VNone | None => None
              | Some t => Some t
              end) in
  let got := respond g (remote w) in
  let deleted := respond d got.2 in
  Entity.remove e w
  = (if is_error (status_code deleted.1)
     then Raise (HTTPError (status_code deleted.1))
     else match guessed got.1 with
          | Some row => Ok (row, e)
          | None => Raise ValueError
          end,
     {| remote := deleted.2; sent := (sent w ++ [g; d])%list |}).
Proof.
  intros I u g d got deleted.
  assert (E : d = mkRequest DELETE u None (if_match_of (Entity.etag_of e))).
  { unfold d, if_match_of, Entity.etag_of.
    destruct (Entity.fields e !! "_etag") as [[]|]; reflexivity. }
  unfold Entity.remove, bind, lift, getitem. rewrite I.
  rewrite delete_run. fold u. fold g. fold got. rewrite <- E. fold deleted.
  unfold checked, raise_for_status, is_error, and_then, json_loads, ret.
  cbn [status_code body].
  destruct (_ && _); [reflexivity|].
  destruct (guessed got.1); reflexivity.
Qed.


(** X8.  [save] does not take the new [_etag] from the response: when a
    [save] has returned, a second [save] on the instance sends the very
    request the first one sent, with the etag the first one used. *)
Theorem second_save_repeats_the_first (e e1 : Entity.instance)
    (_id response : value) (w w1 : world) :
  Entity.fields e !! "_id" = Some _id →
  Entity.save e w = (Ok (response, e1), w1) →
  ∃ r, req_method r = PUT
       ∧ req_if_match r = if_match_of (Entity.etag_of e)
       ∧ sent w1 = (sent w ++ [r])%list
       ∧ sent (Entity.save e1 w1).2 = (sent w ++ [r; r])%list.
Proof.
  intros I S. rewrite (save_run e _id w I) in S.
  destruct (checked _) as [v|x]; [|discriminate S].
  cbn [and_then] in S. injection S as <- <- <-.
  eexists. split; [|split; [|split; [reflexivity|]]]; [reflexivity..|].
  rewrite (save_run e _id _ I). cbn [snd sent].
  by rewrite <- app_assoc.
Qed.


(** What a [create] that returned has done. *)
Lemma create_inv (e e' : Entity.instance) (route : string)
    (response : value) (w w' : world) :
  Entity.link (Entity.cls e) = VStr route →
  Entity.create e w = (Ok (response, e'), w') →
  let r := mkRequest POST
             (join (Client.url (Entity.server (Entity.cls e))) route)
             (Some (VDict (Entity.fields e))) None in
  w' = {| remote := (respond r (remote w)).2; sent := sent w ++ [r] |}
  ∧ dict_update (Entity.fields e) response = Ok (Entity.fields e')
  ∧ Entity.cls e' = Entity.cls e
  ∧ Entity.attrs e' = Entity.attrs e.
Proof.
  intros L C r. unfold Entity.create in C. rewrite L in C.
  unfold bind in C. rewrite post_run in C. fold r in C.
  destruct (checked _) as [v|x]; [|discriminate C].
  unfold lift, ret in C.
  destruct (dict_update (Entity.fields e) v) as [f|x] eqn:U;
    [|discriminate C].
  injection C as <- <- <-. rewrite U. cbn. auto.
Qed.

(** X9.  [create] and then [save].  When [create] has returned an object
    with an [_id] and an [_etag], a [save] on the instance sends a PUT to
    [{link}/{_id}] with the [_id] the server assigned, with the assigned
    [_etag] as [If-Match] (unless it is [None]), and with the regular
    fields of the merged mapping, in which the entries of the response
    have replaced the local ones, as payload. *)
Theorem save_after_create_uses_assigned_identity (e e' : Entity.instance)
    (route : string) (d : gmap string value) (_id etag : value)
    (w w' : world) :
  Entity.link (Entity.cls e) = VStr route →
  Entity.create e w = (Ok (VDict d, e'), w') →
  d !! "_id" = Some _id →
  d !! "_etag" = Some etag →
  Entity.fields e' = d ∪ Entity.fields e
  ∧ sent (Entity.save e' w').2
    = (sent w'
       ++ [ mkRequest PUT
              (join (Client.url (Entity.server (Entity.cls e)))
                    (route ++ "/" ++ fmt _id))
              (Some (VDict (Entity.regular_fields e')))
              (if_match_of etag) ])%list.
Proof.
  intros L C I T.
  destruct (create_inv e e' route (VDict d) w w' L C) as (_ & U & Ec & _).
  cbn [dict_update] in U. injection U as U.
  split; [by rewrite U|].
  assert (I' : Entity.fields e' !! "_id" = Some _id).
  { rewrite <- U. by apply lookup_union_Some_l. }
  assert (T' : Entity.fields e' !! "_etag" = Some etag).
  { rewrite <- U. by apply lookup_union_Some_l. }
  rewrite (save_run e' _id w' I'). cbn [snd sent].
  unfold Entity.etag_of. rewrite T', Ec, L. reflexivity.
Qed.


(** X10.  A POST that went through can still make [create] raise: when
    the status is no error but the text is not JSON the call raises
    [ValueError], and when it decodes to [None], a boolean or a number it
    raises [TypeError] (there is nothing to merge).  In both cases the
    request has been sent. *)
Theorem create_raises_after_the_post (e : Entity.instance) (route : string)
    (w : world) :
  Entity.link (Entity.cls e) = VStr route →
  let r := mkRequest POST
             (join (Client.url (Entity.server (Entity.cls e))) route)
             (Some (VDict (Entity.fields e))) None in
  let after := {| remote := (respond r (remote w)).2;
                  sent := (sent w ++ [r])%list |} in
  is_error (status_code (respond r (remote w)).1) = false →
  (body (respond r (remote w)).1 = None →
   Entity.create e w = (Raise ValueError, after))
  ∧ (∀ v, body (respond r (remote w)).1 = Some v →
          v = VNone ∨ (∃ b, v = VBool b) ∨ (∃ n, v = VInt n) →
          Entity.create e w = (Raise TypeError, after)).
Proof.
  intros L r after E. unfold Entity.create. rewrite L. unfold bind.
  rewrite post_run. fold r. rewrite (checked_pass _ E). unfold json_loads.
  split.
  - intros ->. reflexivity.
  - intros v -> [-> | [[b ->] | [n ->]]]; reflexivity.
Qed.

End MoreRemote.

Lemma remove_fetches_then_deletes_run :
  let e := Entity.__init__ Demo.Book
             {[ "_id" := VInt 7; "_etag" := VStr "e1" ]} in
  Entity.fields e !! "_id" = Some (VInt 7)
  ∧ @Entity.remove Demo.get_fails Demo.builtins e
      (@Demo.w0 Demo.get_fails tt)
    = (Ok (VDict {[ "_status" := VStr "ERR" ]}, e),
       @mkWorld Demo.get_fails tt
         [ mkRequest GET "http://wenu/book/7" None None;
           mkRequest DELETE "http://wenu/book/7" None (Some (VStr "e1")) ]).
Proof.
  intros e. split; [reflexivity|].
  exact (@remove_fetches_then_deletes Demo.get_fails Demo.builtins e (VInt 7)
           (@Demo.w0 Demo.get_fails tt) eq_refl).
Defined.

Lemma second_save_repeats_the_first_run :
  let e := Entity.__init__ Demo.Book
             {[ "_id" := VInt 7; "_etag" := VStr "e0" ]} in
  let r := mkRequest PUT "http://wenu/book/7" (Some (VDict ∅))
                     (Some (VStr "e0")) in
  let w1 := @mkWorld Demo.created tt [ r ] in
  (Entity.fields e !! "_id" = Some (VInt 7)
   ∧ @Entity.save Demo.created Demo.builtins e (@Demo.w0 Demo.created tt)
     = (Ok (VDict {[ "_id" := VInt 7; "_etag" := VStr "e1" ]}, e), w1))
  ∧ ∃ r', sent (@Entity.save Demo.created Demo.builtins e w1).2 = [ r'; r' ].
Proof.
  intros e r w1.
  assert (S : @Entity.save Demo.created Demo.builtins e
                (@Demo.w0 Demo.created tt)
              = (Ok (VDict {[ "_id" := VInt 7; "_etag" := VStr "e1" ]}, e),
                 w1)) by (vm_compute; reflexivity).
  split; [split; [reflexivity | exact S]|].
  destruct (@second_save_repeats_the_first Demo.created Demo.builtins
              e e (VInt 7) _ _ w1 eq_refl S) as (r' & _ & _ & _ & T).
  exists r'. exact T.
Defined.

Lemma save_after_create_run :
  let e := Entity.__init__ Demo.Book {[ "title" := VStr "Dune" ]} in
  let d : gmap string value := {[ "_id" := VInt 7; "_etag" := VStr "e1" ]} in
  let e' := {| Entity.cls := Demo.Book;
               Entity.fields := d ∪ {[ "title" := VStr "Dune" ]};
               Entity.attrs := {[ "initialized" := VBool true ]} |} in
  let w' := @mkWorld Demo.created tt
              [ mkRequest POST "http://wenu/book"
                  (Some (VDict {[ "title" := VStr "Dune" ]})) None ] in
  (Entity.link (Entity.cls e) = VStr "book"
   ∧ @Entity.create Demo.created e (@Demo.w0 Demo.created tt)
     = (Ok (VDict d, e'), w')
   ∧ d !! "_id" = Some (VInt 7) ∧ d !! "_etag" = Some (VStr "e1"))
  ∧ sent (@Entity.save Demo.created Demo.builtins e' w').2
    = (sent w'
       ++ [ mkRequest PUT "http://wenu/book/7"
              (Some (VDict {[ "title" := VStr "Dune" ]}))
              (Some (VStr "e1")) ])%list.
Proof.
  intros e d e' w'.
  assert (C : @Entity.create Demo.created e (@Demo.w0 Demo.created tt)
              = (Ok (VDict d, e'), w')) by (vm_compute; reflexivity).
  split; [split; [reflexivity|]; split; [exact C|]; split; reflexivity|].
  exact (proj2 (@save_after_create_uses_assigned_identity Demo.created
                  Demo.builtins e e' "book" d (VInt 7) (VStr "e1")
                  (@Demo.w0 Demo.created tt) w' eq_refl C eq_refl eq_refl)).
Defined.

Lemma create_raises_after_the_post_run :
  let e := Entity.__init__ Demo.Book {[ "title" := VStr "Dune" ]} in
  let S := Demo.constant 204 None in
  (Entity.link (Entity.cls e) = VStr "book" ∧ is_error 204 = false)
  ∧ @Entity.create S e (@Demo.w0 S tt)
    = (Raise ValueError,
       @mkWorld S tt [ mkRequest POST "http://wenu/book"
                         (Some (VDict {[ "title" := VStr "Dune" ]})) None ]).
Proof.
  intros e S. split; [split; reflexivity|].
  exact (proj1 (@create_raises_after_the_post S e "book" (@Demo.w0 S tt)
                  eq_refl eq_refl) eq_refl).
Defined.

(** ** Queries *)

Lemma construct_raises_type_error (c : Entity.class) (row : value)
    (x : exn) :
  Entity.construct c row = Raise x → x = TypeError.
Proof.
  unfold Entity.construct. destruct row as [| | | | |d]; try congruence.
  destruct (d !! "self"); congruence.
Qed.

Section MoreQueries.
Context `{Session} `{Builtins}.

Lemma silent_lift {A} (r : result A) : silent (lift r).
Proof. intros w. reflexivity. Qed.

Lemma silent_ret {A} (a : A) : silent (ret a).
Proof. intros w. reflexivity. Qed.

Lemma silent_raise {A} (x : exn) : silent (@raise _ A x).
Proof. intros w. reflexivity. Qed.

Lemma silent_bind {A B} (m : M A) (k : A → M B) :
  silent m → (∀ a, silent (k a)) → silent (bind m k).
Proof.
  intros Sm Sk w. unfold bind. specialize (Sm w).
  destruct (m w) as [[a|x] w1]; cbn in Sm; subst w1; [apply Sk | reflexivity].
Qed.

(** Behind a computation, a silent continuation leaves the world as the
    computation left it. *)
Lemma bind_silent_world {A B} (m : M A) (k : A → M B) (w : world) :
  (∀ a, silent (k a)) → (bind m k w).2 = (m w).2.
Proof.
  intros Sk. unfold bind. destruct (m w) as [[a|x] w1]; [apply Sk|reflexivity].
Qed.

Lemma get_only_reads (self : Client.handle) (route : string) (w : world) :
  only_read w (Client.get self route w).2.
Proof.
  rewrite get_run. eexists. split; [reflexivity|].
  split; [reflexivity|]. repeat constructor.
Qed.

Lemma only_read_refl (w : world) : only_read w w.
Proof.
  exists []. split; [by rewrite app_nil_r|]. split; [cbn; lia | constructor].
Qed.

Lemma silent_collect (c : Entity.class) (results : value) :
  silent (items <~ lift (getitem results "_items") ;;
          rows <~ lift (py_iter items) ;;
          ret {| Entity.gen_cls := c; Entity.pending := rows |}).
Proof.
  apply silent_bind; [apply silent_lift|]. intros items.
  apply silent_bind; [apply silent_lift|]. intros rows. apply silent_ret.
Qed.

Lemma where_only_reads (c : Entity.class) (options : value)
    (kwargs : gmap string value) (w : world) :
  only_read w (Entity.where_ c options kwargs w).2.
Proof.
  unfold Entity.where_. cbv zeta. rewrite bind_silent_world.
  - apply get_only_reads.
  - intros results. apply silent_collect.
Qed.

(** X11.  The calls that query never write.  Whatever the class, the
    arguments and the answers of the server, [list], [get_by_id], [where],
    [embedded] and [first_where] send at most one request, and that
    request is a GET with no payload and no [If-Match]. *)
Theorem queries_only_read (c : Entity.class) (_id options : value)
    (kwargs : gmap string value) (w : world) :
  only_read w (Entity.list_ c options w).2
  ∧ only_read w (Entity.get_by_id c _id options w).2
  ∧ only_read w (Entity.where_ c options kwargs w).2
  ∧ only_read w (Entity.embedded c options kwargs w).2
  ∧ only_read w (Entity.first_where c kwargs w).2.
Proof.
  split; [|split; [|split; [|split]]].
  - unfold Entity.list_.
    destruct (is_none options); [destruct (Entity.link c)|];
      try apply only_read_refl.
    + unfold bind at 1, lift at 1. rewrite bind_silent_world.
      * apply get_only_reads.
      * intros results. apply silent_bind; [apply silent_lift|].
        intros items. apply silent_bind; [apply silent_lift|].
        intros rows. apply silent_lift.
    + unfold bind at 1, lift at 1. rewrite bind_silent_world.
      * apply get_only_reads.
      * intros results. apply silent_bind; [apply silent_lift|].
        intros items. apply silent_bind; [apply silent_lift|].
        intros rows. apply silent_lift.
  - unfold Entity.get_by_id.
    destruct (Entity.link_is_measurement c); [apply only_read_refl|].
    cbv zeta. rewrite bind_silent_world.
    + apply get_only_reads.
    + intros row. apply silent_lift.
  - apply where_only_reads.
  - unfold Entity.embedded. cbv zeta. rewrite bind_silent_world.
    + apply get_only_reads.
    + intros results. apply silent_collect.
  - unfold Entity.first_where.
    destruct (kwargs !! "cls"); [apply only_read_refl|].
    rewrite bind_silent_world; [apply where_only_reads|].
    intros g. destruct (Entity.next g) as [[e|[]] g'];
      first [apply silent_ret | apply silent_raise].
Qed.

(** X12.  On a class whose link is not ['measurement'], [get_by_id] sends
    one GET to [{link}/{id}], with [?{options}] behind it when options are
    given.  An error status raises [HTTPError]; a body that decodes to a
    JSON object without the key [self] gives the instance of the class
    with that object as field mapping; a body that decodes to anything but
    an object raises [TypeError]. *)
Theorem get_by_id_fetches_one_row (c : Entity.class) (_id options : value)
    (w : world) :
  Entity.link_is_measurement c = false →
  let r := mkRequest GET
             (join (Client.url (Entity.server c))
                   (if is_none options
                    then fmt (Entity.link c) ++ "/" ++ fmt _id
                    else fmt (Entity.link c) ++ "/" ++ fmt _id ++ "?"
                         ++ fmt options))
             None None in
  let answer := (respond r (remote w)).1 in
  (Entity.get_by_id c _id options w).2
  = {| remote := (respond r (remote w)).2; sent := (sent w ++ [r])%list |}
  ∧ (is_error (status_code answer) = true →
     (Entity.get_by_id c _id options w).1
     = Raise (HTTPError (status_code answer)))
  ∧ (is_error (status_code answer) = false →
     ∀ v, body answer = Some v →
          (Entity.get_by_id c _id options w).1 = Entity.construct c v
          ∧ (∀ d, v = VDict d → d !! "self" = None →
                  Entity.construct c v = Ok (Entity.__init__ c d))
          ∧ ((∀ d, v ≠ VDict d) → Entity.construct c v = Raise TypeError)).
Proof.
  intros M r answer. unfold Entity.get_by_id. rewrite M. cbv zeta.
  unfold bind. rewrite get_run. fold r. fold answer.
  split; [|split].
  - destruct (checked answer); reflexivity.
  - intros E. by rewrite (checked_error _ E).
  - intros E v B. rewrite (checked_pass _ E).
    unfold json_loads. rewrite B.
    split; [reflexivity|]. split.
    + intros d -> S. unfold Entity.construct. by rewrite S.
    + intros N. destruct v; try reflexivity. by destruct (N d).
Qed.

Lemma construct_all_Forall2 (c : Entity.class) (rows : list value)
    (es : list Entity.instance) :
  Entity.construct_all c rows = Ok es
  ↔ Forall2 (fun row e => Entity.construct c row = Ok e) rows es.
Proof.
  revert es. induction rows as [|row rows IH]; intros es; cbn.
  - split.
    + intros E. injection E as <-. constructor.
    + intros F. by inversion F.
  - destruct (Entity.construct c row) as [e|x] eqn:C.
    + destruct (Entity.construct_all c rows) as [es'|x] eqn:A.
      * split.
        -- intros E. injection E as <-. constructor; [exact C|].
           by apply IH.
        -- intros F. inversion F as [|? e0 ? es0 C0 F0]; subst.
           rewrite C in C0. injection C0 as <-.
           apply IH in F0. by injection F0 as <-.
      * split; [discriminate|].
        intros F. inversion F as [|? e0 ? es0 C0 F0]; subst.
        apply IH in F0. discriminate F0.
    + split; [discriminate|].
      intros F. inversion F as [|? e0 ? es0 C0 F0]; subst.
      rewrite C in C0. discriminate C0.
Qed.

(** X13.  On a class whose link is a string, [list] sends one GET, to the
    link, with [?{options}] behind it when options are given.  When the
    response passes validation and decodes to an object, the call raises
    [KeyError] if the object has no [_items]; and if [_items] is a list,
    the call returns a list [es] exactly when every row is accepted by the
    class and [es] holds, position by position, the instances of the rows:
    one row that is refused makes the whole call fail. *)
Theorem list_builds_every_row (c : Entity.class) (l : string)
    (options : value) (w : world) :
  Entity.link c = VStr l →
  let r := mkRequest GET
             (join (Client.url (Entity.server c))
                   (if is_none options then l else l ++ "?" ++ fmt options))
             None None in
  let answer := (respond r (remote w)).1 in
  sent (Entity.list_ c options w).2 = (sent w ++ [r])%list
  ∧ ∀ d, is_error (status_code answer) = false →
         body answer = Some (VDict d) →
         (d !! "_items" = None →
          (Entity.list_ c options w).1 = Raise (KeyError "_items"))
         ∧ ∀ rows, d !! "_items" = Some (VList rows) →
             (∀ es, (Entity.list_ c options w).1 = Ok es
                    ↔ Forall2 (fun row e => Entity.construct c row = Ok e)
                              rows es)
             ∧ (∀ row, row ∈ rows →
                       is_ok (Entity.construct c row) = false →
                       is_ok (Entity.list_ c options w).1 = false).
Proof.
  intros L r answer.
  assert (R : Entity.list_ c options w
              = (results <- checked answer ;;
                 items <- getitem results "_items" ;;
                 rows <- py_iter items ;;
                 Entity.construct_all c rows,
                 {| remote := (respond r (remote w)).2;
                    sent := (sent w ++ [r])%list |})).
  { unfold Entity.list_. rewrite L. cbn [fmt].
    assert (E : (if is_none options then Ok l
                 else Ok (l ++ "?" ++ fmt options))
                = Ok (if is_none options then l
                      else l ++ "?" ++ fmt options))
      by (destruct (is_none options); reflexivity).
    rewrite E. unfold bind at 1, lift at 1. unfold bind at 1.
    rewrite get_run. fold r. fold answer.
    unfold bind, lift, and_then.
    destruct (checked answer) as [v|x]; [|reflexivity].
    destruct (getitem v "_items") as [i|x]; [|reflexivity].
    destruct (py_iter i); reflexivity. }
  rewrite R. split; [reflexivity|].
  intros d E B. cbn [fst].
  rewrite (checked_pass _ E). unfold json_loads. rewrite B.
  cbn [and_then getitem]. split.
  - intros ->. reflexivity.
  - intros rows ->. cbn [and_then py_iter]. split.
    + intros es. apply construct_all_Forall2.
    + intros row I F.
      destruct (Entity.construct_all c rows) as [es|x] eqn:A; [|reflexivity].
      apply construct_all_Forall2 in A.
      apply list_elem_of_lookup in I as [i I].
      destruct (Forall2_lookup_l _ _ _ _ _ A I) as (e & _ & C).
      rewrite C in F. discriminate F.
Qed.

(** X14.  The generator of [where] and the list of [list] agree.  Asked
    for one instance after the other, the generator over some rows gives
    the instances [list] builds from these rows and then stops; and when
    some row is refused, so that [list] raises, the generator has given
    the instances of the rows before it and raises the same exception at
    that row. *)
Theorem generator_yields_what_list_builds (c : Entity.class)
    (rows : list value) :
  let g := {| Entity.gen_cls := c; Entity.pending := rows |} in
  match Entity.construct_all c rows with
  | Ok es =>
      outcomes (S (length rows)) g
      = ((Ok <$> es) ++ [Raise StopIteration])%list
  | Raise x =>
      ∃ es, (length es < length rows)%nat
            ∧ Entity.construct_all c (take (length es) rows) = Ok es
            ∧ is_ok (Entity.construct_all
                       c (take (S (length es)) rows)) = false
            ∧ outcomes (S (length rows)) g
              = ((Ok <$> es) ++ [Raise x])%list
  end.
Proof.
  induction rows as [|row rows IH]; [reflexivity|].
  cbv zeta in *.
  change (outcomes (S (length (row :: rows))) _)
    with (match Entity.next {| Entity.gen_cls := c;
                               Entity.pending := row :: rows |} with
          | (Ok e, g') => Ok e :: outcomes (S (length rows)) g'
          | (Raise x, _) => [Raise x]
          end).
  unfold Entity.next. cbn [Entity.pending Entity.gen_cls].
  cbn [Entity.construct_all].
  destruct (Entity.construct c row) as [e|x] eqn:C.
  - destruct (Entity.construct_all c rows) as [es|x] eqn:A.
    + cbn [fmap list_fmap app]. by rewrite IH.
    + destruct IH as (es & Len & T & F & O).
      exists (e :: es). cbn [length take Entity.construct_all].
      rewrite C, T. split; [lia|]. split; [reflexivity|].
      split.
      * destruct (Entity.construct_all c (take (S (length es)) rows));
          [discriminate F | reflexivity].
      * by rewrite O.
  - exists []. cbn [length take Entity.construct_all]. rewrite C.
    split; [lia|]. split; [reflexivity|]. split; reflexivity.
Qed.

(** X15.  [first_where] looks at the first row only.  With filters that
    do not use the names [cls] and [options], it sends the GET of [where]
    without options; on a response that passes validation and decodes to
    an object with a list under [_items], it returns [None] when the list
    is empty and otherwise what the class makes of the first row, the
    instance or the [TypeError], whatever the rows behind it are. *)
Theorem first_where_reads_the_first_row (c : Entity.class)
    (kwargs : gmap string value) (w : world) :
  kwargs !! "cls" = None →
  kwargs !! "options" = None →
  let r := mkRequest GET
             (join (Client.url (Entity.server c))
                   (fmt (Entity.link c) ++ "?where=" ++ json_dumps kwargs))
             None None in
  let answer := (respond r (remote w)).1 in
  sent (Entity.first_where c kwargs w).2 = (sent w ++ [r])%list
  ∧ ∀ d rows,
      is_error (status_code answer) = false →
      body answer = Some (VDict d) →
      d !! "_items" = Some (VList rows) →
      (Entity.first_where c kwargs w).1
      = match rows with
        | [] => Ok None
        | row :: _ => match Entity.construct c row with
                      | Ok e => Ok (Some e)
                      | Raise x => Raise x
                      end
        end.
Proof.
  intros Nc No r answer. unfold Entity.first_where.
  rewrite Nc, No. cbn [default]. rewrite (delete_id _ _ No).
  assert (Q : Entity.where_ c VNone kwargs w
              = (decoded <- checked answer ;;
                 items <- getitem decoded "_items" ;;
                 rows <- py_iter items ;;
                 Ok {| Entity.gen_cls := c; Entity.pending := rows |},
                 {| remote := (respond r (remote w)).2;
                    sent := (sent w ++ [r])%list |})).
  { unfold Entity.where_. cbv zeta. cbn [is_none negb].
    unfold bind at 1. rewrite get_run. fold r. fold answer.
    unfold bind, lift, ret, and_then.
    destruct (checked answer) as [v|x]; [|reflexivity].
    destruct (getitem v "_items") as [i|x]; [|reflexivity].
    destruct (py_iter i); reflexivity. }
  unfold bind. rewrite Q. split.
  - destruct (_ <- checked answer ;; _) as [g|x]; [|reflexivity].
    destruct (Entity.next g) as [[e|[]] g']; reflexivity.
  - intros d rows E B I.
    rewrite (checked_pass _ E). unfold json_loads. rewrite B.
    cbn [and_then getitem]. rewrite I. cbn [and_then py_iter].
    unfold Entity.next. cbn [Entity.pending Entity.gen_cls].
    destruct rows as [|row rest]; [reflexivity|].
    destruct (Entity.construct c row) as [e|x] eqn:C; [reflexivity|].
    apply construct_raises_type_error in C as ->. reflexivity.
Qed.
End MoreQueries.

Lemma get_by_id_fetches_one_row_run :
  Entity.link_is_measurement Demo.Book = false
  ∧ @Entity.get_by_id Demo.created Demo.builtins Demo.Book (VInt 7)
      (VStr "embedded={}") (@Demo.w0 Demo.created tt)
    = (Ok (Entity.__init__ Demo.Book
             {[ "_id" := VInt 7; "_etag" := VStr "e1" ]}),
       @mkWorld Demo.created tt
         [ mkRequest GET "http://wenu/book/7?embedded={}" None None ]).
Proof.
  split; [reflexivity|].
  destruct (@get_by_id_fetches_one_row Demo.created Demo.builtins Demo.Book
              (VInt 7) (VStr "embedded={}") (@Demo.w0 Demo.created tt)
              eq_refl) as (W & _ & R).
  destruct (R eq_refl _ eq_refl) as (G & C & _).
  apply injective_projections; [|exact W].
  rewrite G. exact (C _ eq_refl eq_refl).
Defined.

Lemma list_builds_every_row_run :
  Entity.link Demo.Book = VStr "book"
  ∧ is_ok (@Entity.list_ Cases.mixed_rows Demo.builtins Demo.Book VNone
             (@Demo.w0 Cases.mixed_rows tt)).1 = false.
Proof.
  split; [reflexivity|].
  destruct (@list_builds_every_row Cases.mixed_rows Demo.builtins Demo.Book
              "book" VNone (@Demo.w0 Cases.mixed_rows tt) eq_refl)
    as (_ & R).
  destruct (R _ eq_refl eq_refl) as (_ & Rows).
  destruct (Rows _ eq_refl) as (_ & Bad).
  apply (Bad (VInt 5)); [right; left | reflexivity].
Defined.

Lemma first_where_reads_the_first_row_run :
  ((∅ : gmap string value) !! "cls" = None
   ∧ (∅ : gmap string value) !! "options" = None)
  ∧ (@Entity.first_where Cases.mixed_rows Demo.builtins Demo.Book ∅
       (@Demo.w0 Cases.mixed_rows tt)).1
    = Ok (Some (Entity.__init__ Demo.Book {[ "a" := VInt 1 ]})).
Proof.
  split; [split; reflexivity|].
  destruct (@first_where_reads_the_first_row Cases.mixed_rows Demo.builtins
              Demo.Book ∅ (@Demo.w0 Cases.mixed_rows tt)
              (lookup_empty "cls") (lookup_empty "options"))
    as (_ & R).
  exact (R _ _ eq_refl eq_refl eq_refl).
Defined.

(** ** Discovery, again *)

Section MoreDiscovery.
Context `{Session} `{Text}.

(** The static entry comes last, so its name is bound to its class. *)
Lemma measurement_bound (url : string) (w w' : world)
    (c : ClientInit.client) :
  ClientInit.__init__ url w = (Ok c, w') →
  ∃ discovered,
    child_list (discovery_response url w) = Some discovered
    ∧ ClientInit.entities c !! "Measurement"
      = Some (Entity.mkClass (length discovered) "Measurement"
                (VStr "measurement") (Client.mkHandle url)).
Proof.
  intros I. destruct (init_inv url w w' c I) as (discovered & D & _ & R).
  exists discovered. split; [exact D|].
  unfold ClientInit.extra_entities in R.
  rewrite (spawn_loop_last _ _ _ _ _ _ _ "Measurement"
             (VStr "measurement") R);
    [reflexivity | apply normalized_measurement | reflexivity |].
  intros child' I'. by apply elem_of_nil in I'.
Qed.

(** X16.  A name without two leading underscores that no entry of the
    merged list (discovered entries, then static ones) normalizes to is no
    resource: unless it is one of the names of the [Client] itself,
    [client.name] raises [AttributeError]. *)
Theorem unknown_resource_is_attribute_error (url : string) (w w' : world)
    (c : ClientInit.client) (discovered : list value) (n : string) :
  ClientInit.__init__ url w = (Ok c, w') →
  child_list (discovery_response url w) = Some discovered →
  is_dunder n = false →
  (∀ child, child ∈ (discovered ++ ClientInit.extra_entities)%list →
            ClientInit.normalized_title child ≠ Ok n) →
  ClientInit.getattr c n
  = if bool_decide (n ∈ ClientInit.own_members)
    then Ok (ClientInit.Own n)
    else Raise (AttributeError n).
Proof.
  intros I D N U. destruct (init_inv url w w' c I) as (l & D' & _ & R).
  rewrite D in D'. injection D' as <-.
  unfold ClientInit.getattr, ClientInit.__getattr__. rewrite N.
  destruct (bool_decide _); [reflexivity|].
  destruct (ClientInit.entities c !! n) as [v|] eqn:L; [|reflexivity].
  destruct (binding_origin _ _ _ _ _ R L) as (child & Lc & T & _).
  exfalso. apply (U child); [|exact T].
  apply list_elem_of_lookup. by eexists.
Qed.

(** X17.  Every [Client] that [__init__] returns has the attribute
    [Measurement], whatever the server listed; it is a class with the link
    ['measurement'], and [get_by_id] on it raises the assertion error for
    every id and every options, sending nothing. *)
Theorem measurement_is_always_there `{Builtins} (url : string)
    (w w' : world) (c : ClientInit.client) :
  ClientInit.__init__ url w = (Ok c, w') →
  ∃ cl, ClientInit.getattr c "Measurement" = Ok (ClientInit.EntityClass cl)
        ∧ Entity.link cl = VStr "measurement"
        ∧ Entity.server cl = ClientInit.self c
        ∧ ∀ _id options w2,
            Entity.get_by_id cl _id options w2 = (Raise AssertionError, w2).
Proof.
  intros I. destruct (measurement_bound url w w' c I) as (l & _ & B).
  destruct (init_inv url w w' c I) as (_ & _ & S & _).
  eexists. unfold ClientInit.getattr, ClientInit.__getattr__. rewrite B.
  split; [reflexivity|]. split; [reflexivity|].
  split; [by rewrite S|]. reflexivity.
Qed.

Lemma silent_spawn (self : Client.handle) (insert : option (list value))
    (http_response : Response) :
  silent (_ <~ lift (raise_for_status http_response) ;;
          response <~ lift (json_loads http_response) ;;
          response <~ lift (match insert with
                            | Some entries =>
                                ClientInit.append_all response entries
                            | None => Ok response
                            end) ;;
          links <~ lift (getitem response "_links") ;;
          child <~ lift (getitem links "child") ;;
          children <~ lift (py_iter child) ;;
          lift (ClientInit.spawn_loop self 0 children ∅)).
Proof.
  repeat (apply silent_bind; [apply silent_lift | intros ?]).
  apply silent_lift.
Qed.

(** X18.  Making a [Client] costs one request whatever comes of it: a GET
    to the base URL, with no payload.  It fails with [HTTPError] on an
    error status, with [ValueError] when the text is not JSON and with
    [KeyError] when the decoded object has no [_links]. *)
Theorem init_sends_one_request (url : string) (w : world) :
  let r := mkRequest GET url None None in
  let answer := (respond r (remote w)).1 in
  (ClientInit.__init__ url w).2
  = {| remote := (respond r (remote w)).2; sent := (sent w ++ [r])%list |}
  ∧ (is_error (status_code answer) = true →
     (ClientInit.__init__ url w).1 = Raise (HTTPError (status_code answer)))
  ∧ (is_error (status_code answer) = false →
     (body answer = None → (ClientInit.__init__ url w).1 = Raise ValueError)
     ∧ (∀ d, body answer = Some (VDict d) → d !! "_links" = None →
             (ClientInit.__init__ url w).1 = Raise (KeyError "_links"))).
Proof.
  intros r answer. split; [|split].
  - unfold ClientInit.__init__. cbv zeta.
    rewrite bind_silent_world by (intros ?; apply silent_ret).
    unfold ClientInit._spawn_entities.
    rewrite bind_silent_world
      by (intros a;
          exact (silent_spawn _ (Some ClientInit.extra_entities) a)).
    by rewrite send_run.
  - intros E. unfold ClientInit.__init__, ClientInit._spawn_entities, bind.
    rewrite send_run. cbn [Client.url]. fold r. fold answer.
    unfold lift, raise_for_status. unfold is_error in E. by rewrite E.
  - intros E. unfold ClientInit.__init__, ClientInit._spawn_entities, bind.
    rewrite send_run. cbn [Client.url]. fold r. fold answer.
    unfold lift, raise_for_status, json_loads. unfold is_error in E.
    rewrite E. split.
    + intros ->. reflexivity.
    + intros d -> L. cbn [ClientInit.append_all ClientInit.extra_entities].
      unfold ClientInit.append_child, getitem at 1. rewrite L. reflexivity.
Qed.

(** X19.  Discovery is all or nothing.  One listed entry that is no
    object, has no [title], has a title that is no string, or has no
    [href] makes [__init__] fail: no [Client] with the remaining resources
    is made. *)
Theorem malformed_entry_fails_discovery (url : string) (w : world)
    (discovered : list value) (child : value) :
  child_list (discovery_response url w) = Some discovered →
  child ∈ discovered →
  is_ok (ClientInit.normalized_title child) = false
  ∨ is_ok (getitem child "href") = false →
  is_ok (ClientInit.__init__ url w).1 = false.
Proof.
  intros D I Bad.
  destruct (ClientInit.__init__ url w) as [[c|x] w'] eqn:E; [|reflexivity].
  exfalso. destruct (init_inv url w w' c E) as (l & D' & _ & R).
  rewrite D in D'. injection D' as <-.
  destruct (spawn_loop_entries _ _ _ _ _ child R) as (t & h & T & Hh).
  { apply elem_of_app. by left. }
  rewrite T, Hh in Bad. by destruct Bad.
Qed.

Lemma spawn_loop_size (self : Client.handle) (l : list value) (oid : nat)
    (ents ents' : gmap string Entity.class) :
  ClientInit.spawn_loop self oid l ents = Ok ents' →
  (size ents ≤ size ents' ≤ size ents + length l)%nat.
Proof.
  revert oid ents. induction l as [|child l IH]; intros oid ents R.
  - injection R as <-. cbn. lia.
  - cbn [ClientInit.spawn_loop] in R.
    destruct (ClientInit.normalized_title child) as [t|x]; [|discriminate].
    destruct (getitem child "href") as [h|x]; [|discriminate].
    cbn [and_then] in R.
    destruct (Entity.spawn_subclass oid t h self) as [e|x]; [|discriminate].
    cbn [and_then] in R. apply IH in R.
    destruct (ents !! t) as [old|] eqn:L.
    + rewrite (map_size_insert_Some t e ents) in R by by eexists.
      cbn [length]. lia.
    + rewrite (map_size_insert_None t e ents L) in R.
      cbn [length]. lia.
Qed.

(** X20.  A [Client] made on a discovery response that lists [n] entries
    has at least one class and at most [n + 1]: entries whose normalized
    titles coincide share a class, and nothing else is ever added. *)
Theorem class_count_bounds (url : string) (w w' : world)
    (c : ClientInit.client) (discovered : list value) :
  ClientInit.__init__ url w = (Ok c, w') →
  child_list (discovery_response url w) = Some discovered →
  (1 ≤ size (ClientInit.entities c) ≤ S (length discovered))%nat.
Proof.
  intros I D. destruct (init_inv url w w' c I) as (l & D' & _ & R).
  rewrite D in D'. injection D' as <-.
  destruct (measurement_bound url w w' c I) as (l' & _ & B).
  apply spawn_loop_size in R. rewrite map_size_empty in R.
  rewrite length_app in R. cbn [length ClientInit.extra_entities] in R.
  split; [|lia].
  destruct (size (ClientInit.entities c)) eqn:Z; [|lia].
  apply map_size_empty_iff in Z. rewrite Z, lookup_empty in B.
  discriminate B.
Qed.
End MoreDiscovery.

Lemma unknown_resource_run :
  (@ClientInit.__init__ Demo.catalogue ascii_text "http://wenu"
     (@Demo.w0 Demo.catalogue tt) = (Ok Demo.client, Demo.w1)
   ∧ child_list (@discovery_response Demo.catalogue "http://wenu"
                   (@Demo.w0 Demo.catalogue tt))
     = Some [ Demo.resource "measurement" "sensor_log";
              Demo.resource "book" "book" ]
   ∧ is_dunder "Author" = false)
  ∧ ClientInit.getattr Demo.client "Author" = Raise (AttributeError "Author").
Proof.
  split; [split; [exact init_catalogue | split; reflexivity]|].
  apply (@unknown_resource_is_attribute_error Demo.catalogue ascii_text
           _ _ _ _ _ "Author" init_catalogue eq_refl eq_refl).
  intros child I.
  repeat (apply elem_of_cons in I as [->|I]; [vm_compute; discriminate|]).
  by apply elem_of_nil in I.
Defined.

Lemma measurement_is_always_there_run :
  @ClientInit.__init__ Demo.catalogue ascii_text "http://wenu"
    (@Demo.w0 Demo.catalogue tt) = (Ok Demo.client, Demo.w1)
  ∧ ∃ cl, ClientInit.getattr Demo.client "Measurement"
          = Ok (ClientInit.EntityClass cl)
          ∧ Entity.link cl = VStr "measurement".
Proof.
  split; [exact init_catalogue|].
  destruct (@measurement_is_always_there Demo.catalogue ascii_text Demo.builtins _ _ _ _
              init_catalogue) as (cl & G & L & _).
  exists cl. by split.
Defined.

Lemma init_sends_one_request_run :
  is_error 404 = true
  ∧ (@ClientInit.__init__ Demo.not_found ascii_text "http://wenu"
       (@Demo.w0 Demo.not_found tt)).1 = Raise (HTTPError 404).
Proof.
  split; [reflexivity|].
  exact (proj1 (proj2 (@init_sends_one_request Demo.not_found ascii_text "http://wenu"
                         (@Demo.w0 Demo.not_found tt))) eq_refl).
Defined.

Lemma malformed_entry_run :
  let bad := VDict {[ "title" := VStr "author" ]} in
  (child_list (@discovery_response Cases.broken_catalogue "http://wenu"
                 (@Demo.w0 Cases.broken_catalogue tt))
   = Some [ Demo.resource "book" "book"; bad ]
   ∧ is_ok (getitem bad "href") = false)
  ∧ is_ok (@ClientInit.__init__ Cases.broken_catalogue ascii_text "http://wenu"
             (@Demo.w0 Cases.broken_catalogue tt)).1 = false.
Proof.
  intros bad. split; [split; reflexivity|].
  apply (@malformed_entry_fails_discovery Cases.broken_catalogue ascii_text _ _
           [ Demo.resource "book" "book"; bad ] bad eq_refl).
  - right. left.
  - right. reflexivity.
Defined.

Lemma class_count_bounds_run :
  (@ClientInit.__init__ Demo.catalogue ascii_text "http://wenu"
     (@Demo.w0 Demo.catalogue tt) = (Ok Demo.client, Demo.w1)
   ∧ child_list (@discovery_response Demo.catalogue "http://wenu"
                   (@Demo.w0 Demo.catalogue tt))
     = Some [ Demo.resource "measurement" "sensor_log";
              Demo.resource "book" "book" ])
  ∧ (1 ≤ size (ClientInit.entities Demo.client) ≤ 3)%nat.
Proof.
  split; [split; [exact init_catalogue | reflexivity]|].
  exact (@class_count_bounds Demo.catalogue ascii_text _ _ _ _ _ init_catalogue
           eq_refl).
Defined.

(** ** The token *)

Section Token.
Context `{Credentials}.

End Token.


(** ** The verbs *)

Section MoreVerbs.
Context `{Session}.

(** X22.  [get], [put] and [post] send exactly one request each, to
    [{url}/{route}], whatever the server answers: there is no retry and no
    second address.  [put] and [post] carry the payload, [put] the etag as
    [If-Match] unless it is [None].  The status is checked before the body
    is looked at: on an error status the call raises [HTTPError] with that
    status even if the body is JSON, and only otherwise is the text
    decoded. *)
Theorem verbs_send_once_and_check_status (self : Client.handle)
    (route : string) (json etag : value) (w : world) :
  let u := join (Client.url self) route in
  let contract := fun (call : M value) (r : Request) =>
    (call w).2 = {| remote := (respond r (remote w)).2;
                    sent := (sent w ++ [r])%list |}
    ∧ (is_error (status_code (respond r (remote w)).1) = true →
       (call w).1 = Raise (HTTPError (status_code (respond r (remote w)).1)))
    ∧ (is_error (status_code (respond r (remote w)).1) = false →
       (call w).1 = match body (respond r (remote w)).1 with
                    | Some v => Ok v
                    | None => Raise ValueError
                    end) in
  contract (Client.get self route) (mkRequest GET u None None)
  ∧ contract (Client.put self route json etag)
             (mkRequest PUT u (Some json)
                        (match etag with VNone => None | _ => Some etag end))
  ∧ contract (Client.post self route json) (mkRequest POST u (Some json) None).
Proof.
  intros u contract.
  assert (C : ∀ call r,
             call w = (checked (respond r (remote w)).1,
                       {| remote := (respond r (remote w)).2;
                          sent := (sent w ++ [r])%list |}) →
             contract call r).
  { intros call r E. unfold contract. rewrite E. cbn [fst snd].
    split; [reflexivity|]. split.
    - apply checked_error.
    - intros P. by rewrite (checked_pass _ P). }
  split; [|split]; apply C.
  - apply get_run.
  - rewrite put_run. unfold if_match_of. by destruct etag.
  - apply post_run.
Qed.
End MoreVerbs.

Lemma verbs_send_once_run :
  is_error 404 = true
  ∧ @Client.put Demo.not_found Demo.server "book/7" (VDict ∅) (VStr "e1")
      (@Demo.w0 Demo.not_found tt)
    = (Raise (HTTPError 404),
       @mkWorld Demo.not_found tt
         [ mkRequest PUT "http://wenu/book/7" (Some (VDict ∅))
                     (Some (VStr "e1")) ]).
Proof.
  split; [reflexivity|].
  destruct (@verbs_send_once_and_check_status Demo.not_found Demo.server
              "book/7" (VDict ∅) (VStr "e1") (@Demo.w0 Demo.not_found tt))
    as (_ & (W & E & _) & _).
  apply injective_projections; [exact (E eq_refl) | exact W].
Defined.
